(** * Todo application: the REST store and the client's live-update logic

    The server side embeds the FastAPI handlers of [app/main.py] (the
    in-memory [todos] dictionary and its five endpoints).  The client side
    embeds [services/api.ts] (the WebSocket connection with its reconnect
    timer), [components/TodoInput.tsx] and [App.tsx] (the component state and
    the WebSocket message handler). *)

From stdpp Require Import gmap list strings.

Set Default Proof Using "Type".

(** ** Text

    A text value is the sequence of its code units: UTF-16 code units for a
    JavaScript string, code points for a Python [str].  Literals of the
    source are ASCII, and [lit] gives their code units. *)

Definition text := list N.

Definition lit (s : string) : text :=
  Ascii.N_of_ascii <$> String.list_ascii_of_string s.

(** ** The server: [app/main.py] *)

Module Main.

(** [uuid.UUID], by its 128-bit integer value. *)
Definition UUID := N.

(** [datetime], as a count of microseconds. *)
Definition datetime := Z.

(** [class TodoItem(BaseModel)]. *)
Record TodoItem := mkTodoItem {
  id : UUID;
  title : text;
  created_at : datetime
}.

#[export] Instance TodoItem_eq_dec : EqDecision TodoItem.
Proof. solve_decision. Defined.

(** The JSON body of a request, before validation: [id] and [created_at]
    are optional because the model gives them a [default_factory]. *)
Record Body := mkBody {
  body_id : option UUID;
  body_title : text;
  body_created_at : option datetime
}.

(** Validation of a body into a [TodoItem].  [uuid4] and [now] are the
    values the two default factories return when they are called. *)
Definition validate (uuid4 : UUID) (now : datetime) (b : Body) : TodoItem :=
  {| id := default uuid4 (body_id b);
     title := body_title b;
     created_at := default now (body_created_at b) |}.

(** Truth value of a [UUID]: the class defines neither [__bool__] nor
    [__len__], so every instance is true. *)
Definition truthy (u : UUID) : bool := true.

(** What a handler gives back: the returned value, or the raised
    [HTTPException]. *)
Inductive Response (A : Type) :=
| Ok (body : A)
| HTTPException (status_code : N) (detail : string).
Arguments Ok {A} body.
Arguments HTTPException {A} status_code detail.

(** [todos: Dict[UUID, TodoItem] = {}].  The dictionary is a finite map;
    the order in which [values()] enumerates it is not modelled. *)
Definition todos : gmap UUID TodoItem := ∅.

(** [get_todos]: [list(todos.values())]. *)
Definition get_todos (todos : gmap UUID TodoItem)
  : Response (list TodoItem) * gmap UUID TodoItem :=
  (Ok (map_to_list todos).*2, todos).

(** [create_todo].  [uuid4] is the value [uuid4()] returns if it is
    called.  The handler also computes [todo.model_dump()], which it never
    uses. *)
Definition create_todo (uuid4 : UUID) (todo : TodoItem)
    (todos : gmap UUID TodoItem)
  : Response TodoItem * gmap UUID TodoItem :=
  let todo :=
    if negb (truthy (id todo))
    then {| id := uuid4; title := title todo; created_at := created_at todo |}
    else todo in
  (Ok todo, <[id todo := todo]> todos).

(** [get_todo]. *)
Definition get_todo (todo_id : UUID) (todos : gmap UUID TodoItem)
  : Response TodoItem * gmap UUID TodoItem :=
  match todos !! todo_id with
  | None => (HTTPException 404 "Todo not found", todos)
  | Some todo => (Ok todo, todos)
  end.

(** [update_todo]. *)
Definition update_todo (todo_id : UUID) (updated_todo : TodoItem)
    (todos : gmap UUID TodoItem)
  : Response TodoItem * gmap UUID TodoItem :=
  match todos !! todo_id with
  | None => (HTTPException 404 "Todo not found", todos)
  | Some old =>
      let updated_todo :=
        {| id := id updated_todo;
           title := title updated_todo;
           created_at := created_at old |} in
      (Ok updated_todo, <[todo_id := updated_todo]> todos)
  end.

(** [delete_todo]. *)
Definition delete_todo (todo_id : UUID) (todos : gmap UUID TodoItem)
  : Response string * gmap UUID TodoItem :=
  match todos !! todo_id with
  | None => (HTTPException 404 "Todo not found", todos)
  | Some _ => (Ok "Todo deleted successfully", delete todo_id todos)
  end.

(** A write request, as the handlers receive it. *)
Inductive Op :=
| Create (uuid4 : UUID) (todo : TodoItem)
| Delete (todo_id : UUID).

#[export] Instance Op_eq_dec : EqDecision Op.
Proof. solve_decision. Defined.

(** One request is served to completion; a raised exception becomes the
    response and the dictionary stays as the handler left it. *)
Definition serve (todos : gmap UUID TodoItem) (op : Op)
  : gmap UUID TodoItem :=
  match op with
  | Create uuid4 todo => (create_todo uuid4 todo todos).2
  | Delete todo_id => (delete_todo todo_id todos).2
  end.

Definition run (ops : list Op) : gmap UUID TodoItem :=
  foldl serve todos ops.

(** The identifiers of the records [get_todos] returns. *)
Definition listed (todos : gmap UUID TodoItem) : list UUID :=
  match (get_todos todos).1 with
  | Ok l => id <$> l
  | HTTPException _ _ => []
  end.

End Main.

(** ** JavaScript strings *)

Module JS.

(** [WhiteSpace] and [LineTerminator] code points of ECMAScript, the
    characters [String.prototype.trim] strips.  All of them are single
    UTF-16 code units. *)
Definition isWhiteSpace (c : N) : bool :=
  bool_decide (c ∈ [0x9; 0xA; 0xB; 0xC; 0xD; 0x20; 0xA0; 0x1680;
                    0x2028; 0x2029; 0x202F; 0x205F; 0x3000; 0xFEFF]%N)
  || ((0x2000 <=? c) && (c <=? 0x200A))%N.

Fixpoint trimStart (s : text) : text :=
  match s with
  | [] => []
  | c :: s' => if isWhiteSpace c then trimStart s' else s
  end.

Definition trimEnd (s : text) : text :=
  reverse (trimStart (reverse s)).

(** [s.trim()]. *)
Definition trim (s : text) : text := trimEnd (trimStart s).

(** Truth value of a string: only the empty string is false. *)
Definition truthy (s : text) : bool :=
  match s with
  | [] => false
  | _ :: _ => true
  end.

End JS.

(** ** [components/TodoInput.tsx] *)

Module TodoInput.

(** [handleSubmit], on the current [title] state: the argument of the
    [onAddTodo] call when there is one, and the [title] state afterwards. *)
Definition handleSubmit (title : text) : option text * text :=
  if JS.truthy (JS.trim title)
  then (Some (JS.trim title), lit "")
  else (None, title).

End TodoInput.

(** ** [services/api.ts]: the WebSocket connection *)

Module Api.

Inductive ReadyState := CONNECTING | OPEN | CLOSING | CLOSED.

#[export] Instance ReadyState_eq_dec : EqDecision ReadyState.
Proof. solve_decision. Defined.

(** A socket object: its [readyState] and whether its [onclose] property
    still holds the handler [connectWebSocket] installed.  The other three
    handlers are never removed. *)
Record WebSocket := mkWebSocket {
  readyState : ReadyState;
  onclose : bool
}.

(** The socket objects created so far, each named by its position; the
    module's three variables, [socket] holding the name of an object; and
    the timers of the browser that are armed and have not fired, with their
    identifier and their delay in milliseconds.  The only callback ever
    armed is the reconnect. *)
Record State := mkState {
  sockets : list WebSocket;
  socket : option nat;
  reconnectTimeout : option N;
  isConnecting : bool;
  timers : list (N * N);
  next_timer : N
}.

(** Before the first call: no socket, no timer; the browser hands out
    timer identifiers from 1 on. *)
Definition initial : State :=
  {| sockets := []; socket := None; reconnectTimeout := None;
     isConnecting := false; timers := []; next_timer := 1 |}.

Definition set_sockets (l : list WebSocket) (s : State) : State :=
  {| sockets := l; socket := socket s;
     reconnectTimeout := reconnectTimeout s;
     isConnecting := isConnecting s; timers := timers s;
     next_timer := next_timer s |}.

Definition set_socket (w : option nat) (s : State) : State :=
  {| sockets := sockets s; socket := w;
     reconnectTimeout := reconnectTimeout s;
     isConnecting := isConnecting s; timers := timers s;
     next_timer := next_timer s |}.

Definition set_reconnectTimeout (t : option N) (s : State) : State :=
  {| sockets := sockets s; socket := socket s; reconnectTimeout := t;
     isConnecting := isConnecting s; timers := timers s;
     next_timer := next_timer s |}.

Definition set_isConnecting (b : bool) (s : State) : State :=
  {| sockets := sockets s; socket := socket s;
     reconnectTimeout := reconnectTimeout s;
     isConnecting := b; timers := timers s;
     next_timer := next_timer s |}.

Definition set_timers (l : list (N * N)) (s : State) : State :=
  {| sockets := sockets s; socket := socket s;
     reconnectTimeout := reconnectTimeout s;
     isConnecting := isConnecting s; timers := l;
     next_timer := next_timer s |}.

(** [setTimeout(callback, delay)]: arms one timer and returns its
    identifier. *)
Definition setTimeout (delay : N) (s : State) : N * State :=
  (next_timer s,
   {| sockets := sockets s; socket := socket s;
      reconnectTimeout := reconnectTimeout s;
      isConnecting := isConnecting s;
      timers := timers s ++ [(next_timer s, delay)];
      next_timer := N.succ (next_timer s) |}).

(** [clearTimeout(id)]. *)
Definition clearTimeout (t : N) (s : State) : State :=
  set_timers (filter (λ e, e.1 ≠ t) (timers s)) s.

(** [new WebSocket(WS_URL)], with the four handlers installed: the new
    object's name and the state that holds it. *)
Definition new_WebSocket (s : State) : nat * State :=
  (length (sockets s),
   set_sockets
     (sockets s ++ [{| readyState := CONNECTING; onclose := true |}]) s).

(** The object the variable [socket] names, if any. *)
Definition current (s : State) : option WebSocket :=
  i ← socket s; sockets s !! i.

(** [if (reconnectTimeout) { clearTimeout(reconnectTimeout);
    reconnectTimeout = null; }]: [null] and [0] are false. *)
Definition clear_reconnect (s : State) : State :=
  match reconnectTimeout s with
  | Some t =>
      if (t =? 0)%N then s
      else set_reconnectTimeout None (clearTimeout t s)
  | None => s
  end.

(** [connectWebSocket(onMessage)]. *)
Definition connectWebSocket (s : State) : State :=
  if isConnecting s then s
  else
    match current s with
    | Some {| readyState := OPEN |} => s
    | _ =>
        let s := clear_reconnect s in
        let s := set_isConnecting true s in
        let '(i, s) := new_WebSocket s in
        set_socket (Some i) s
    end.

(** [socket.onopen]. *)
Definition socket_onopen (s : State) : State :=
  set_isConnecting false s.

(** [socket.onerror]. *)
Definition socket_onerror (s : State) : State :=
  set_isConnecting false s.

(** The delay of the reconnect timer, in milliseconds. *)
Definition reconnect_delay : N := 5000.

(** [socket.onclose]. *)
Definition socket_onclose (s : State) : State :=
  let s := set_isConnecting false s in
  let '(t, s) := setTimeout reconnect_delay s in
  set_reconnectTimeout (Some t) s.

(** [disconnectWebSocket()].  [socket.close()] on an open or connecting
    socket starts the closing handshake. *)
Definition disconnectWebSocket (s : State) : State :=
  let s := clear_reconnect s in
  let s :=
    match socket s with
    | Some i =>
        let close (w : WebSocket) :=
          {| readyState :=
               match readyState w with
               | OPEN | CONNECTING => CLOSING
               | r => r
               end;
             onclose := false |} in
        set_socket None (set_sockets (alter close i (sockets s)) s)
    | None => s
    end in
  set_isConnecting false s.

(** The browser changes the [readyState] of the object named [i]. *)
Definition set_readyState (i : nat) (r : ReadyState) (s : State) : State :=
  set_sockets
    (alter (λ w, {| readyState := r; onclose := onclose w |}) i (sockets s)) s.

(** The browser's events on the object named [i]: the connection is
    established, it fails, it is closed.  Each runs the handler the object
    holds for it. *)
Definition opened (i : nat) (s : State) : State :=
  match sockets s !! i with
  | Some _ => socket_onopen (set_readyState i OPEN s)
  | None => s
  end.

Definition errored (i : nat) (s : State) : State :=
  match sockets s !! i with
  | Some _ => socket_onerror s
  | None => s
  end.

Definition closed (i : nat) (s : State) : State :=
  match sockets s !! i with
  | Some {| onclose := true |} => socket_onclose (set_readyState i CLOSED s)
  | Some {| onclose := false |} => set_readyState i CLOSED s
  | None => s
  end.

(** The armed timer [t] fires: it leaves the table and its callback calls
    [connectWebSocket(onMessage)]. *)
Definition fired (t : N) (s : State) : State :=
  if bool_decide (t ∈ (timers s).*1)
  then connectWebSocket (set_timers (filter (λ e, e.1 ≠ t) (timers s)) s)
  else s.

End Api.

(** ** [App.tsx]: the component state and the live-update handler *)

Module App.

(** [interface TodoItem] of [types/index.ts]. *)
Record TodoItem := mkTodoItem {
  id : text;
  title : text;
  created_at : text
}.

#[export] Instance TodoItem_eq_dec : EqDecision TodoItem.
Proof. solve_decision. Defined.

(** A parsed WebSocket message: its [type] tag and the payload fields the
    handler reads ([data.todos], [data.todo], [data.id]). *)
Record Message := mkMessage {
  data_type : text;
  data_todos : list TodoItem;
  data_todo : TodoItem;
  data_id : text
}.

(** The three [useState] cells of the component. *)
Record State := mkState {
  todos : list TodoItem;
  error : option text;
  wsConnected : bool
}.

(** The initial values given to [useState]. *)
Definition initial : State :=
  {| todos := []; error := None; wsConnected := false |}.

Definition setTodos (f : list TodoItem → list TodoItem) (s : State) : State :=
  {| todos := f (todos s); error := error s; wsConnected := wsConnected s |}.

Definition setError (e : option text) (s : State) : State :=
  {| todos := todos s; error := e; wsConnected := wsConnected s |}.

Definition setWsConnected (b : bool) (s : State) : State :=
  {| todos := todos s; error := error s; wsConnected := b |}.

(** [handleWebSocketMessage]: the [switch] compares [data.type] with each
    [case] label in turn by strict equality. *)
Definition handleWebSocketMessage (data : Message) (s : State) : State :=
  if decide (data_type data = lit "init") then
    setWsConnected true (setTodos (λ _, data_todos data) s)
  else if decide (data_type data = lit "create") then
    setTodos (λ currentTodos, currentTodos ++ [data_todo data]) s
  else if decide (data_type data = lit "update") then
    setTodos (λ currentTodos,
      (λ todo, if decide (id todo = id (data_todo data))
               then data_todo data else todo) <$> currentTodos) s
  else if decide (data_type data = lit "delete") then
    setTodos (λ currentTodos,
      filter (λ todo, id todo ≠ data_id data) currentTodos) s
  else s.

(** The [type] tags with a [case] of their own. *)
Definition recognized : list text :=
  [lit "init"; lit "create"; lit "update"; lit "delete"].

(** A call of [App()] binds the state of that moment to the constants
    [todos], [error] and [wsConnected]; the functions defined in the body,
    [loadTodos] among them, read these constants.  [loadTodos] is given
    here with the constants of its render as [seen].

    [loadTodos] up to its [await]. *)
Definition loadTodos_start (seen : State) (s : State) : State :=
  setError None s.

(** [loadTodos] after [fetchTodos()] resolved with [data]. *)
Definition loadTodos_resolved (seen : State) (data : list TodoItem)
    (s : State) : State :=
  if negb (wsConnected seen) then setTodos (λ _, data) s else s.

(** [loadTodos] after [fetchTodos()] rejected. *)
Definition loadTodos_rejected (seen : State) (s : State) : State :=
  setError (Some (lit "Failed to load todos. Please try again later.")) s.

(** The text next to the status dot. *)
Definition status_text (s : State) : text :=
  if wsConnected s then lit "Live updates connected" else lit "Offline mode".

(** The component together with the connection module it drives. *)
Record Client := mkClient {
  app : State;
  ws : Api.State
}.

(** [useEffect(..., [])] runs its body once, after the first render: the
    [loadTodos] it calls is the one of that render, whose constants are the
    initial state. *)
Definition first_render : State := initial.

(** The effect body: [loadTodos()] up to its [await], then
    [connectWebSocket(handleWebSocketMessage)]. *)
Definition mount : Client :=
  {| app := loadTodos_start first_render initial;
     ws := Api.connectWebSocket Api.initial |}.

(** What can happen to a mounted client; the socket events name the
    object they are about. *)
Inductive Event :=
| FetchResolved (data : list TodoItem)
| FetchRejected
| SocketOpened (i : nat)
| SocketMessage (data : Message)
| SocketError (i : nat)
| SocketClosed (i : nat)
| TimerFired (t : N).

Definition step (c : Client) (e : Event) : Client :=
  match e with
  | FetchResolved data =>
      {| app := loadTodos_resolved first_render data (app c); ws := ws c |}
  | FetchRejected =>
      {| app := loadTodos_rejected first_render (app c); ws := ws c |}
  | SocketOpened i => {| app := app c; ws := Api.opened i (ws c) |}
  | SocketMessage data =>
      {| app := handleWebSocketMessage data (app c); ws := ws c |}
  | SocketError i => {| app := app c; ws := Api.errored i (ws c) |}
  | SocketClosed i => {| app := app c; ws := Api.closed i (ws c) |}
  | TimerFired t => {| app := app c; ws := Api.fired t (ws c) |}
  end.

Definition run (es : list Event) : Client := foldl step mount es.

End App.

(** ** [app/main.py]: the five endpoints as requests *)

Module Endpoints.

(** A request to one of the five routes, with the arguments its handler
    receives. *)
Inductive Request :=
| GET_todos
| POST_todos (uuid4 : Main.UUID) (todo : Main.TodoItem)
| GET_todo (todo_id : Main.UUID)
| PUT_todo (todo_id : Main.UUID) (updated_todo : Main.TodoItem)
| DELETE_todo (todo_id : Main.UUID).

(** The dictionary after the handler of the request has run. *)
Definition respond (todos : gmap Main.UUID Main.TodoItem) (r : Request)
  : gmap Main.UUID Main.TodoItem :=
  match r with
  | GET_todos => (Main.get_todos todos).2
  | POST_todos uuid4 todo => (Main.create_todo uuid4 todo todos).2
  | GET_todo todo_id => (Main.get_todo todo_id todos).2
  | PUT_todo todo_id updated_todo =>
      (Main.update_todo todo_id updated_todo todos).2
  | DELETE_todo todo_id => (Main.delete_todo todo_id todos).2
  end.

Definition run (rs : list Request) : gmap Main.UUID Main.TodoItem :=
  foldl respond Main.todos rs.

(** The create and delete requests among [rs], in their order. *)
Definition writes (rs : list Request) : list Main.Op :=
  omap (λ r, match r with
             | POST_todos uuid4 todo => Some (Main.Create uuid4 todo)
             | DELETE_todo todo_id => Some (Main.Delete todo_id)
             | _ => None
             end) rs.


Definition is_create (op : Main.Op) : bool :=
  match op with
  | Main.Create _ _ => true
  | Main.Delete _ => false
  end.

End Endpoints.

(** ** [services/api.ts]: the REST calls *)

Module Rest.

(** How a promise settles. *)
Inductive Settled (A : Type) :=
| Fulfilled (value : A)
| Rejected (reason : text).
Arguments Fulfilled {A} value.
Arguments Rejected {A} reason.

(** What [await fetch(...)] comes to: [fetch] rejects (no response), or it
    gives a response with its [ok] flag, whose [json()] would settle as
    [json]. *)
Inductive Fetched (A : Type) :=
| NoResponse (reason : text)
| Response (ok : bool) (json : Settled A).
Arguments NoResponse {A} reason.
Arguments Response {A} ok json.

(** [fetchTodos]. *)
Definition fetchTodos {A} (r : Fetched A) : Settled A :=
  match r with
  | NoResponse reason => Rejected reason
  | Response ok json =>
      if negb ok then Rejected (lit "Failed to fetch todos") else json
  end.

(** [addTodo]. *)
Definition addTodo {A} (r : Fetched A) : Settled A :=
  match r with
  | NoResponse reason => Rejected reason
  | Response ok json =>
      if negb ok then Rejected (lit "Failed to add todo") else json
  end.

(** [deleteTodo]: the body of the response is not read. *)
Definition deleteTodo {A} (r : Fetched A) : Settled () :=
  match r with
  | NoResponse reason => Rejected reason
  | Response ok _ =>
      if negb ok then Rejected (lit "Failed to delete todo") else Fulfilled ()
  end.

End Rest.

(** ** [App.tsx]: the handlers that call the REST API *)

Module Handlers.

(** [loadTodos] after its [await], with the constants of its render as
    [seen]: the [try] body when [fetchTodos()] fulfils, the [catch] body
    when it rejects. *)
Definition loadTodos_settled (seen : App.State)
    (r : Rest.Fetched (list App.TodoItem)) (s : App.State) : App.State :=
  match Rest.fetchTodos r with
  | Rest.Fulfilled data => App.loadTodos_resolved seen data s
  | Rest.Rejected _ => App.loadTodos_rejected seen s
  end.

(** [handleAddTodo] up to its [await]. *)
Definition handleAddTodo_start (s : App.State) : App.State :=
  App.setError None s.

(** [handleAddTodo] after [addTodo(title)] settled. *)
Definition handleAddTodo_settled
    (r : Rest.Fetched App.TodoItem) (s : App.State) : App.State :=
  match Rest.addTodo r with
  | Rest.Fulfilled _ => s
  | Rest.Rejected _ =>
      App.setError
        (Some (lit "Failed to add todo. Please check your connection.")) s
  end.

(** [handleDeleteTodo] up to its [await]. *)
Definition handleDeleteTodo_start (s : App.State) : App.State :=
  App.setError None s.

(** [handleDeleteTodo] after [deleteTodo(id)] settled. *)
Definition handleDeleteTodo_settled {A}
    (r : Rest.Fetched A) (s : App.State) : App.State :=
  match Rest.deleteTodo r with
  | Rest.Fulfilled _ => s
  | Rest.Rejected _ => App.setError (Some (lit "Failed to delete todo.")) s
  end.

(** The state after the messages [ms] came in over the socket, in order. *)
Definition receive (ms : list App.Message) (s : App.State) : App.State :=
  foldl (λ s data, App.handleWebSocketMessage data s) s ms.

End Handlers.

(** ** Predicates used to state the properties *)

(** Every record of the dictionary sits under its own identifier. *)
Definition keyed (todos : gmap Main.UUID Main.TodoItem) : Prop :=
  ∀ k t, todos !! k = Some t → Main.id t = k.

(** [i] was created by a request of [ops] that no later request deletes. *)
Definition live (i : Main.UUID) (ops : list Main.Op) : Prop :=
  ∃ before uuid4 todo after,
    ops = before ++ Main.Create uuid4 todo :: after
    ∧ Main.id todo = i
    ∧ Main.Delete i ∉ after.

(** A text made of white space only (the empty text included). *)
Definition blank (s : text) : Prop :=
  Forall (λ c, JS.isWhiteSpace c = true) s.

(** The first and the last code unit of [s], if any, are not white space. *)
Definition trimmed (s : text) : Prop :=
  (∀ c, head s = Some c → JS.isWhiteSpace c = false)
  ∧ (∀ c, last s = Some c → JS.isWhiteSpace c = false).

(** What holds of the connection module in every state a mounted client
    goes through: the armed timers have distinct identifiers, each above
    zero and below the next one to hand out, and the reconnect delay; the
    timer [reconnectTimeout] remembers is in that range; [socket] names an
    existing socket object; no object lost its [onclose] handler; and while
    [isConnecting] is set, the object [socket] names is still connecting. *)
Definition connection_ok (s : Api.State) : Prop :=
  NoDup (Api.timers s).*1
  ∧ Forall (λ e, (0 < e.1 < Api.next_timer s)%N ∧ e.2 = Api.reconnect_delay)
           (Api.timers s)
  ∧ (0 < Api.next_timer s)%N
  ∧ (∀ t, Api.reconnectTimeout s = Some t → (0 < t < Api.next_timer s)%N)
  ∧ (∃ i, Api.socket s = Some i ∧ i < length (Api.sockets s))
  ∧ Forall (λ w, Api.onclose w = true) (Api.sockets s)
  ∧ (Api.isConnecting s = true →
     ∃ w, Api.current s = Some w ∧ Api.readyState w = Api.CONNECTING).

(** A message tagged [init] is among the events. *)
Definition init_received (es : list App.Event) : Prop :=
  ∃ data, App.SocketMessage data ∈ es ∧ App.data_type data = lit "init".

(** ** Sample data *)

Definition buy_milk : Main.TodoItem :=
  Main.validate 7%N 1000%Z
    {| Main.body_id := None; Main.body_title := lit "Buy milk";
       Main.body_created_at := None |}.

(** A request that names the identifier of [buy_milk] itself. *)
Definition same_id : Main.TodoItem :=
  Main.validate 8%N 2000%Z
    {| Main.body_id := Some 7%N; Main.body_title := lit "Call mom";
       Main.body_created_at := None |}.

(** A request whose title is two spaces. *)
Definition two_spaces : Main.TodoItem :=
  Main.validate 9%N 3000%Z
    {| Main.body_id := None; Main.body_title := lit "  ";
       Main.body_created_at := None |}.

(** The same task as the client sees it. *)
Definition milk : App.TodoItem :=
  {| App.id := lit "7"; App.title := lit "Buy milk";
     App.created_at := lit "2025-04-17T10:00:00" |}.

(** The messages of the live channel that carry [milk]. *)
Definition init_milk : App.Message :=
  {| App.data_type := lit "init"; App.data_todos := [milk];
     App.data_todo := milk; App.data_id := lit "7" |}.

Definition create_milk : App.Message :=
  {| App.data_type := lit "create"; App.data_todos := [];
     App.data_todo := milk; App.data_id := lit "7" |}.

Definition delete_milk : App.Message :=
  {| App.data_type := lit "delete"; App.data_todos := [];
     App.data_todo := milk; App.data_id := lit "7" |}.

(** A message tagged [snapshot], a tag without a [case]. *)
Definition snapshot_milk : App.Message :=
  {| App.data_type := lit "snapshot"; App.data_todos := [milk];
     App.data_todo := milk; App.data_id := lit "7" |}.

(** The task of [milk] under a new title, and the message that carries
    it. *)
Definition tea : App.TodoItem :=
  {| App.id := lit "7"; App.title := lit "Buy tea";
     App.created_at := lit "2025-04-17T10:00:00" |}.

Definition update_tea : App.Message :=
  {| App.data_type := lit "update"; App.data_todos := [];
     App.data_todo := tea; App.data_id := lit "7" |}.

(** Another task, and the message that creates it. *)
Definition bread : App.TodoItem :=
  {| App.id := lit "8"; App.title := lit "Buy bread";
     App.created_at := lit "2025-04-18T09:30:00" |}.

Definition create_bread : App.Message :=
  {| App.data_type := lit "create"; App.data_todos := [];
     App.data_todo := bread; App.data_id := lit "8" |}.

(** * The definitions at work *)

Example trim_sample : JS.trim (lit "  Buy milk 	") = lit "Buy milk".
Proof. reflexivity. Qed.

Example trim_inner_space_kept : JS.trim (lit " a b ") = lit "a b".
Proof. reflexivity. Qed.

Example submit_sample :
  TodoInput.handleSubmit (lit " Buy milk ") = (Some (lit "Buy milk"), []).
Proof. reflexivity. Qed.

Example run_sample :
  Main.listed
    (Main.run [Main.Create 8%N buy_milk; Main.Delete 3%N;
               Main.Create 8%N two_spaces; Main.Delete 7%N])
  = [9%N].
Proof. reflexivity. Qed.

Example delete_missing :
  Main.delete_todo 3%N {[ 7%N := buy_milk ]}
  = (Main.HTTPException 404 "Todo not found", {[ 7%N := buy_milk ]}).
Proof. reflexivity. Qed.

Example update_sample :
  Main.update_todo 7%N same_id {[ 7%N := buy_milk ]}
  = (Main.Ok {| Main.id := 7%N; Main.title := lit "Call mom";
                Main.created_at := 1000%Z |},
     {[ 7%N := {| Main.id := 7%N; Main.title := lit "Call mom";
                  Main.created_at := 1000%Z |} ]}).
Proof. reflexivity. Qed.

Example mount_sample :
  App.mount
  = {| App.app := App.initial;
       App.ws := {| Api.sockets := [{| Api.readyState := Api.CONNECTING;
                                       Api.onclose := true |}];
                    Api.socket := Some 0;
                    Api.reconnectTimeout := None;
                    Api.isConnecting := true;
                    Api.timers := [];
                    Api.next_timer := 1%N |} |}.
Proof. reflexivity. Qed.

(** After a close, the timer fires and a second socket is being opened. *)
Example reconnect_sample :
  App.ws (App.run [App.SocketOpened 0; App.SocketClosed 0;
                   App.TimerFired 1%N])
  = {| Api.sockets := [{| Api.readyState := Api.CLOSED;
                          Api.onclose := true |};
                       {| Api.readyState := Api.CONNECTING;
                          Api.onclose := true |}];
       Api.socket := Some 1;
       Api.reconnectTimeout := None;
       Api.isConnecting := true;
       Api.timers := [];
       Api.next_timer := 2%N |}.
Proof. reflexivity. Qed.

(** After [disconnectWebSocket()] the close of the socket arms no timer. *)
Example disconnect_sample :
  Api.closed 0 (Api.disconnectWebSocket (Api.opened 0 (App.ws App.mount)))
  = {| Api.sockets := [{| Api.readyState := Api.CLOSED;
                          Api.onclose := false |}];
       Api.socket := None;
       Api.reconnectTimeout := None;
       Api.isConnecting := false;
       Api.timers := [];
       Api.next_timer := 1%N |}.
Proof. reflexivity. Qed.

(** * Properties of the store *)

Section Store.

Implicit Types (todos : gmap Main.UUID Main.TodoItem) (ops : list Main.Op).
Implicit Types (i k : Main.UUID).

Lemma run_snoc ops op :
  Main.run (ops ++ [op]) = Main.serve (Main.run ops) op.
Proof. unfold Main.run. by rewrite foldl_app. Qed.

Lemma serve_create todos uuid4 todo :
  Main.serve todos (Main.Create uuid4 todo) = <[Main.id todo := todo]> todos.
Proof. done. Qed.

Lemma serve_delete todos k :
  Main.serve todos (Main.Delete k) = delete k todos.
Proof.
  cbn. unfold Main.delete_todo.
  destruct (todos !! k) eqn:E; cbn; [done|].
  symmetry. by apply delete_id.
Qed.

Lemma keyed_serve todos op : keyed todos → keyed (Main.serve todos op).
Proof.
  intros Hk. destruct op as [u t|j].
  - rewrite serve_create. intros k t'.
    rewrite lookup_insert. case_decide; [naive_solver | apply Hk].
  - rewrite serve_delete. intros k t'.
    rewrite lookup_delete. case_decide; [done | apply Hk].
Qed.

Lemma keyed_run ops : keyed (Main.run ops).
Proof.
  induction ops as [|op ops IH] using rev_ind.
  - intros k t. unfold Main.run, Main.todos. cbn. by rewrite lookup_empty.
  - rewrite run_snoc. by apply keyed_serve.
Qed.

Lemma listed_keys todos :
  keyed todos → Main.listed todos = (map_to_list todos).*1.
Proof.
  intros Hk. unfold Main.listed, Main.get_todos. cbn.
  rewrite <- list_fmap_compose. apply Forall_fmap_ext, Forall_forall.
  intros [k t] Hin. cbn. apply Hk. by apply elem_of_map_to_list.
Qed.

Lemma live_snoc_create i ops uuid4 todo :
  live i (ops ++ [Main.Create uuid4 todo]) ↔ Main.id todo = i ∨ live i ops.
Proof.
  split.
  - intros (before & u & t & after & Heq & Hid & Hdel).
    destruct after as [|a after _] using rev_ind.
    + apply app_inj_tail in Heq as [_ [= _ ->]]. by left.
    + rewrite app_comm_cons, app_assoc in Heq.
      apply app_inj_tail in Heq as [-> <-]. right.
      exists before, u, t, after. split_and!; [done..|].
      intros Hin. apply Hdel. apply elem_of_app. by left.
  - intros [Hid | (before & u & t & after & -> & Hid & Hdel)].
    + exists ops, uuid4, todo, []. split_and!; [done..|]. by intros ?%elem_of_nil.
    + exists before, u, t, (after ++ [Main.Create uuid4 todo]).
      split_and!; [by rewrite <- app_assoc | done |].
      intros [?|Hin%list_elem_of_singleton]%elem_of_app; [done|discriminate].
Qed.

Lemma live_snoc_delete i ops k :
  live i (ops ++ [Main.Delete k]) ↔ i ≠ k ∧ live i ops.
Proof.
  split.
  - intros (before & u & t & after & Heq & Hid & Hdel).
    destruct after as [|a after _] using rev_ind.
    + by apply app_inj_tail in Heq as [_ ?].
    + rewrite app_comm_cons, app_assoc in Heq.
      apply app_inj_tail in Heq as [-> <-]. split.
      * intros ->. apply Hdel. apply elem_of_app. right. by left.
      * exists before, u, t, after. split_and!; [done..|].
        intros Hin. apply Hdel. apply elem_of_app. by left.
  - intros [Hne (before & u & t & after & -> & Hid & Hdel)].
    exists before, u, t, (after ++ [Main.Delete k]).
    split_and!; [by rewrite <- app_assoc | done |].
    intros [?|Hin%list_elem_of_singleton]%elem_of_app; [done|].
    congruence.
Qed.

Lemma lookup_run_live ops i : is_Some (Main.run ops !! i) ↔ live i ops.
Proof.
  induction ops as [|op ops IH] using rev_ind.
  - unfold Main.run, Main.todos. cbn. rewrite lookup_empty. split.
    + by intros [? ?].
    + intros (before & u & t & after & Heq & _). by destruct before.
  - rewrite run_snoc. destruct op as [u t|k].
    + rewrite serve_create, live_snoc_create, <- IH, lookup_insert.
      case_decide as E.
      * split; [by left | by eexists].
      * split; [by right | by intros [?|?]].
    + rewrite serve_delete, live_snoc_delete, <- IH, lookup_delete.
      case_decide as E.
      * subst. split; [by intros [? ?] | by intros [? _]].
      * split; [by split | by intros [_ ?]].
Qed.

End Store.

(** C1: after any sequence of create and delete requests served from the
    empty dictionary, the identifiers of the records [get_todos] returns
    are, without repetition, exactly those created by some request of the
    sequence that no later request of the sequence deletes. *)
Theorem C1_listed_created_not_deleted (ops : list Main.Op) :
  NoDup (Main.listed (Main.run ops)) ∧
  ∀ i : Main.UUID,
    i ∈ Main.listed (Main.run ops) ↔
    ∃ before uuid4 todo after,
      ops = before ++ Main.Create uuid4 todo :: after
      ∧ Main.id todo = i
      ∧ Main.Delete i ∉ after.
Proof.
  rewrite listed_keys by apply keyed_run. split.
  - apply NoDup_fst_map_to_list.
  - intros i. fold (live i ops). rewrite <- lookup_run_live, list_elem_of_fmap.
    split.
    + intros ([k t] & -> & Hin%elem_of_map_to_list). by eexists.
    + intros [t Ht]. exists (i, t). split; [done|]. by apply elem_of_map_to_list.
Qed.

(** C3: deleting an identifier the dictionary does not hold raises the 404
    exception and leaves the dictionary as it was; deleting one it holds
    succeeds and removes that entry and no other. *)
Theorem C3_delete_absent_or_present
    (todos : gmap Main.UUID Main.TodoItem) (todo_id : Main.UUID) :
  (todos !! todo_id = None →
     Main.delete_todo todo_id todos
     = (Main.HTTPException 404 "Todo not found", todos))
  ∧ (is_Some (todos !! todo_id) →
     ∃ message todos',
       Main.delete_todo todo_id todos = (Main.Ok message, todos')
       ∧ todos' !! todo_id = None
       ∧ (∀ k, k ≠ todo_id → todos' !! k = todos !! k)
       ∧ size todos = S (size todos')).
Proof.
  unfold Main.delete_todo. split.
  - by intros ->.
  - intros [t Ht]. rewrite Ht. do 2 eexists. split_and!; [done|..].
    + apply lookup_delete_eq.
    + intros k Hk. by apply lookup_delete_ne.
    + rewrite <- (insert_delete_id todos todo_id t) at 1 by done.
      apply map_size_insert_None, lookup_delete_eq.
Qed.

Lemma C3_witness :
  (Main.todos !! 7%N = None
   ∧ Main.delete_todo 7%N Main.todos
     = (Main.HTTPException 404 "Todo not found", Main.todos))
  ∧ (is_Some (({[ 7%N := buy_milk ]} : gmap Main.UUID Main.TodoItem) !! 7%N)
     ∧ ∃ message todos',
         Main.delete_todo 7%N {[ 7%N := buy_milk ]} = (Main.Ok message, todos')
         ∧ todos' !! 7%N = None
         ∧ (∀ k, k ≠ 7%N → todos' !! k
                           = ({[ 7%N := buy_milk ]}
                              : gmap Main.UUID Main.TodoItem) !! k)
         ∧ size ({[ 7%N := buy_milk ]} : gmap Main.UUID Main.TodoItem)
           = S (size todos')).
Proof.
  split; split.
  - reflexivity.
  - apply (proj1 (C3_delete_absent_or_present Main.todos 7%N)). reflexivity.
  - exists buy_milk. reflexivity.
  - apply (proj2 (C3_delete_absent_or_present {[ 7%N := buy_milk ]} 7%N)).
    exists buy_milk. reflexivity.
Defined.

(** C8: an update of an identifier the dictionary holds stores a record
    whose creation time is the one stored before, whatever creation time
    the request carried; the title is the request's, and no other entry
    changes. *)
Theorem C8_update_preserves_created_at
    (todos : gmap Main.UUID Main.TodoItem) (todo_id : Main.UUID)
    (updated_todo old : Main.TodoItem) :
  todos !! todo_id = Some old →
  ∃ stored todos',
    Main.update_todo todo_id updated_todo todos = (Main.Ok stored, todos')
    ∧ todos' !! todo_id = Some stored
    ∧ Main.created_at stored = Main.created_at old
    ∧ Main.title stored = Main.title updated_todo
    ∧ (∀ k, k ≠ todo_id → todos' !! k = todos !! k).
Proof.
  intros Hold. unfold Main.update_todo. rewrite Hold.
  do 2 eexists. split_and!; [done|..].
  - apply lookup_insert_eq.
  - done.
  - done.
  - intros k Hk. by apply lookup_insert_ne.
Qed.

Lemma C8_witness :
  ({[ 7%N := buy_milk ]} : gmap Main.UUID Main.TodoItem) !! 7%N = Some buy_milk
  ∧ ∃ stored todos',
      Main.update_todo 7%N same_id {[ 7%N := buy_milk ]}
      = (Main.Ok stored, todos')
      ∧ todos' !! 7%N = Some stored
      ∧ Main.created_at stored = Main.created_at buy_milk
      ∧ Main.title stored = Main.title same_id
      ∧ (∀ k, k ≠ 7%N → todos' !! k
                        = ({[ 7%N := buy_milk ]}
                           : gmap Main.UUID Main.TodoItem) !! k).
Proof.
  split; [reflexivity|].
  apply (C8_update_preserves_created_at {[ 7%N := buy_milk ]} 7%N
           same_id buy_milk).
  reflexivity.
Defined.

(** The claim C4 fails when a request names an identifier the dictionary
    already holds: the create succeeds, the identifier it returns is the
    held one, and the number of entries does not grow. *)
Lemma C4_counterexample :
  ∃ returned todos',
    Main.create_todo 8%N same_id {[ 7%N := buy_milk ]} = (Main.Ok returned, todos')
    ∧ is_Some (({[ 7%N := buy_milk ]} : gmap Main.UUID Main.TodoItem)
               !! Main.id returned)
    ∧ size todos' ≠ S (size ({[ 7%N := buy_milk ]} : gmap Main.UUID Main.TodoItem)).
Proof.
  do 2 eexists. split_and!; [reflexivity|..].
  - by eexists.
  - vm_compute. lia.
Qed.

(** C4, amended: every create succeeds and returns the record it stores
    under the identifier the record carries, leaving every other entry as it
    was.  The number of entries grows by exactly one when that identifier
    was not in the dictionary, and stays the same when it was (the held
    record is replaced). *)
Theorem C4_create_fresh_or_replace
    (todos : gmap Main.UUID Main.TodoItem) (uuid4 : Main.UUID)
    (todo : Main.TodoItem) :
  ∃ todos',
    Main.create_todo uuid4 todo todos = (Main.Ok todo, todos')
    ∧ todos' !! Main.id todo = Some todo
    ∧ (∀ k, k ≠ Main.id todo → todos' !! k = todos !! k)
    ∧ size todos' = match todos !! Main.id todo with
                    | None => S (size todos)
                    | Some _ => size todos
                    end.
Proof.
  eexists. split_and!; [reflexivity|..].
  - apply lookup_insert_eq.
  - intros k Hk. by apply lookup_insert_ne.
  - destruct (todos !! Main.id todo) as [held|] eqn:E.
    + apply map_size_insert_Some. by eexists.
    + by apply map_size_insert_None.
Qed.

(** * Properties of [trim] and of the input form *)

Section Trim.

Implicit Types (s : text) (c : N).

Lemma trimStart_split s : ∃ l, s = l ++ JS.trimStart s ∧ blank l.
Proof.
  induction s as [|c s (l & Hs & Hl)]; cbn.
  - exists []. split; [done | constructor].
  - destruct (JS.isWhiteSpace c) eqn:E.
    + exists (c :: l). split; [cbn; by rewrite <- Hs | by constructor].
    + exists []. split; [done | constructor].
Qed.

Lemma trimStart_head s c :
  head (JS.trimStart s) = Some c → JS.isWhiteSpace c = false.
Proof.
  induction s as [|d s IH]; cbn; [done|].
  destruct (JS.isWhiteSpace d) eqn:E; [done|].
  cbn. by intros [= <-].
Qed.

Lemma trimStart_blank s : blank s → JS.trimStart s = [].
Proof. induction 1 as [|c s Hc _ IH]; cbn; [done|]. by rewrite Hc. Qed.

Lemma blank_app l r : blank (l ++ r) ↔ blank l ∧ blank r.
Proof. apply Forall_app. Qed.

Lemma blank_reverse s : blank s → blank (reverse s).
Proof. unfold blank. by rewrite Forall_reverse. Qed.

Lemma trimEnd_split s : ∃ r, s = JS.trimEnd s ++ r ∧ blank r.
Proof.
  destruct (trimStart_split (reverse s)) as (l & Hs & Hl).
  exists (reverse l). split; [|by apply blank_reverse].
  unfold JS.trimEnd. rewrite <- reverse_app, <- Hs. by rewrite reverse_involutive.
Qed.

Lemma trimEnd_last s c :
  last (JS.trimEnd s) = Some c → JS.isWhiteSpace c = false.
Proof. unfold JS.trimEnd. rewrite last_reverse. apply trimStart_head. Qed.

(** A text that does not start with white space keeps its first code unit
    through [trimEnd]. *)
Lemma trimEnd_head s c :
  head s = Some c → JS.isWhiteSpace c = false →
  head (JS.trimEnd s) = Some c.
Proof.
  intros Hhd Hc. destruct (trimEnd_split s) as (r & Hs & Hr).
  destruct (JS.trimEnd s) as [|d t] eqn:E.
  - cbn in Hs. subst r. destruct s as [|d s]; [done|].
    cbn in Hhd. injection Hhd as ->.
    apply Forall_cons in Hr as [Hd _]. congruence.
  - rewrite Hs in Hhd. done.
Qed.

Lemma trim_blank s : blank s → JS.trim s = [].
Proof. intros Hs. unfold JS.trim. by rewrite trimStart_blank. Qed.

(** A text that is not blank is its trimmed text between two blank ones,
    and the trimmed text is not empty. *)
Lemma trim_not_blank s :
  ¬ blank s →
  ∃ l r, s = l ++ JS.trim s ++ r ∧ blank l ∧ blank r
         ∧ JS.trim s ≠ [] ∧ trimmed (JS.trim s).
Proof.
  intros Hs.
  destruct (trimStart_split s) as (l & Hl & Bl).
  destruct (trimEnd_split (JS.trimStart s)) as (r & Hr & Br).
  destruct (JS.trimStart s) as [|c t] eqn:E.
  { exfalso. apply Hs. rewrite Hl, app_nil_r. done. }
  assert (JS.isWhiteSpace c = false) as Hc.
  { apply (trimStart_head s). by rewrite E. }
  assert (head (JS.trim s) = Some c) as Hhd.
  { unfold JS.trim. rewrite E. by apply trimEnd_head. }
  exists l, r. unfold JS.trim in *. rewrite E in *.
  split_and!; [by rewrite <- Hr | done | done | |].
  - by intros Hnil; rewrite Hnil in Hhd.
  - split.
    + intros d. rewrite Hhd. by intros [= <-].
    + apply trimEnd_last.
Qed.

Lemma truthy_nil s : JS.truthy s = false ↔ s = [].
Proof. by destruct s. Qed.

End Trim.

(** The claim C2 fails on a title of two spaces, empty once trimmed: the
    create succeeds, returns the record and stores it in the empty
    dictionary. *)
Lemma C2_counterexample :
  JS.trim (Main.title two_spaces) = []
  ∧ Main.create_todo 10%N two_spaces Main.todos
    = (Main.Ok two_spaces, {[ 9%N := two_spaces ]}).
Proof. split; reflexivity. Qed.

(** C2, amended: the create of the store checks nothing about the title; it
    succeeds and stores the record for every title, blank ones included.
    The check for a blank title is made by the input form: submitting a
    blank title calls nothing and keeps the field as it is, and submitting
    any other title passes on its trimmed text, which is not empty and
    neither starts nor ends with white space, and clears the field. *)
Theorem C2_create_accepts_every_title_form_drops_blank :
  (∀ (todos : gmap Main.UUID Main.TodoItem) uuid4 todo,
     ∃ todos',
       Main.create_todo uuid4 todo todos = (Main.Ok todo, todos')
       ∧ todos' !! Main.id todo = Some todo)
  ∧ (∀ title, blank title → TodoInput.handleSubmit title = (None, title))
  ∧ (∀ title, ¬ blank title →
       ∃ l t r,
         TodoInput.handleSubmit title = (Some t, [])
         ∧ title = l ++ t ++ r ∧ blank l ∧ blank r
         ∧ t ≠ [] ∧ trimmed t).
Proof.
  split_and!.
  - intros todos uuid4 todo. eexists. split; [reflexivity|].
    apply lookup_insert_eq.
  - intros title Hb. unfold TodoInput.handleSubmit.
    by rewrite trim_blank.
  - intros title Hb.
    destruct (trim_not_blank title Hb) as (l & r & Hs & Hl & Hr & Hne & Ht).
    exists l, (JS.trim title), r. split_and!; try done.
    unfold TodoInput.handleSubmit.
    destruct (JS.truthy (JS.trim title)) eqn:E; [done|].
    by apply truthy_nil in E.
Qed.

Lemma C2_witness :
  (blank (lit "  ")
   ∧ TodoInput.handleSubmit (lit "  ") = (None, lit "  "))
  ∧ (¬ blank (lit " a ")
     ∧ ∃ l t r,
         TodoInput.handleSubmit (lit " a ") = (Some t, [])
         ∧ lit " a " = l ++ t ++ r ∧ blank l ∧ blank r
         ∧ t ≠ [] ∧ trimmed t).
Proof.
  pose proof C2_create_accepts_every_title_form_drops_blank
    as (_ & Hblank & Hother).
  assert (blank (lit "  ")) as H1.
  { unfold blank. apply (bool_decide_unpack _). by vm_compute. }
  assert (¬ blank (lit " a ")) as H2.
  { unfold blank. apply (bool_decide_unpack _). by vm_compute. }
  split; split.
  - exact H1.
  - exact (Hblank _ H1).
  - exact H2.
  - exact (Hother _ H2).
Defined.

(** * Properties of the live-update handler *)

Section Handler.

Implicit Types (data : App.Message) (s : App.State) (l : list App.TodoItem).

(** Closes a goal whose hypothesis equates two different literal tags. *)
Local Ltac other_tag :=
  match goal with
  | H : lit _ = lit _ |- _ => by vm_compute in H
  end.

Lemma handle_init data s :
  App.data_type data = lit "init" →
  App.handleWebSocketMessage data s
  = App.setWsConnected true (App.setTodos (λ _, App.data_todos data) s).
Proof.
  intros H. unfold App.handleWebSocketMessage. rewrite H.
  by rewrite decide_True.
Qed.

Lemma handle_create data s :
  App.data_type data = lit "create" →
  App.handleWebSocketMessage data s
  = App.setTodos (λ l, l ++ [App.data_todo data]) s.
Proof.
  intros H. unfold App.handleWebSocketMessage. rewrite H.
  repeat (case_decide; [other_tag || done|]). done.
Qed.

Lemma handle_delete data s :
  App.data_type data = lit "delete" →
  App.handleWebSocketMessage data s
  = App.setTodos (filter (λ todo, App.id todo ≠ App.data_id data)) s.
Proof.
  intros H. unfold App.handleWebSocketMessage. rewrite H.
  repeat (case_decide; [other_tag || done|]). done.
Qed.

Lemma handle_unknown data s :
  App.data_type data ∉ App.recognized →
  App.handleWebSocketMessage data s = s.
Proof.
  unfold App.recognized. rewrite !not_elem_of_cons.
  intros (Hinit & Hcreate & Hupdate & Hdelete & _).
  unfold App.handleWebSocketMessage.
  by rewrite !decide_False.
Qed.

Lemma filter_keeps_all {A} (P : A → Prop) `{!∀ x, Decision (P x)}
    (l : list A) :
  Forall P l → filter P l = l.
Proof.
  induction 1 as [|x l Hx _ IH]; [done|].
  by rewrite filter_cons_True, IH.
Qed.

Lemma setTodos_id s : App.setTodos (λ l, l) s = s.
Proof. by destruct s. Qed.

End Handler.

(** The claim C5 fails on a list that already holds the task: the [create]
    message appends it again, so handling the same message twice gives a
    list one longer than handling it once. *)
Lemma C5_counterexample :
  App.todos (App.handleWebSocketMessage create_milk App.initial) = [milk]
  ∧ App.todos (App.handleWebSocketMessage create_milk
                 (App.handleWebSocketMessage create_milk App.initial))
    = [milk; milk]
  ∧ App.handleWebSocketMessage create_milk
      (App.handleWebSocketMessage create_milk App.initial)
    ≠ App.handleWebSocketMessage create_milk App.initial.
Proof. split_and!; [reflexivity | reflexivity | by vm_compute]. Qed.

(** C5, amended: handling a [create] message appends the task it carries at
    the end of the list, whether or not a task with that identifier is
    already there, and changes nothing else; handling the same message
    twice appends the task twice. *)
Theorem C5_create_message_always_appends
    (data : App.Message) (s : App.State) :
  App.data_type data = lit "create" →
  App.handleWebSocketMessage data s
  = {| App.todos := App.todos s ++ [App.data_todo data];
       App.error := App.error s;
       App.wsConnected := App.wsConnected s |}
  ∧ App.todos (App.handleWebSocketMessage data
                 (App.handleWebSocketMessage data s))
    = App.todos s ++ [App.data_todo data; App.data_todo data].
Proof.
  intros H. rewrite !handle_create by done. split; [done|].
  cbn. by rewrite <- app_assoc.
Qed.

Lemma C5_witness :
  App.data_type create_milk = lit "create"
  ∧ App.todos (App.handleWebSocketMessage create_milk
                 (App.handleWebSocketMessage create_milk App.initial))
    = App.todos App.initial ++ [milk; milk].
Proof.
  split; [reflexivity|].
  apply (C5_create_message_always_appends create_milk App.initial).
  reflexivity.
Defined.

(** C6: handling a [delete] message twice in a row gives the state that
    handling it once gives; when no task of the list has the identifier of
    the message, handling it changes nothing; and the tasks left are
    exactly those of the list with another identifier. *)
Theorem C6_delete_message_idempotent
    (data : App.Message) (s : App.State) :
  App.data_type data = lit "delete" →
  App.handleWebSocketMessage data (App.handleWebSocketMessage data s)
  = App.handleWebSocketMessage data s
  ∧ (App.data_id data ∉ App.id <$> App.todos s →
     App.handleWebSocketMessage data s = s)
  ∧ (∀ todo, todo ∈ App.todos (App.handleWebSocketMessage data s)
             ↔ todo ∈ App.todos s ∧ App.id todo ≠ App.data_id data).
Proof.
  intros H. rewrite !handle_delete by done. split_and!.
  - unfold App.setTodos. cbn. f_equal.
    by apply list_filter_filter_l.
  - intros Habsent. rewrite <- (setTodos_id s) at 2.
    unfold App.setTodos. f_equal.
    apply filter_keeps_all, Forall_forall. intros todo Hin Heq.
    apply Habsent. rewrite <- Heq. by apply list_elem_of_fmap_2.
  - intros todo. cbn. rewrite list_elem_of_filter. tauto.
Qed.

Lemma C6_witness :
  App.data_type delete_milk = lit "delete"
  ∧ App.handleWebSocketMessage delete_milk
      (App.handleWebSocketMessage delete_milk
         (App.handleWebSocketMessage create_milk App.initial))
    = App.handleWebSocketMessage delete_milk
        (App.handleWebSocketMessage create_milk App.initial).
Proof.
  split; [reflexivity|].
  apply (C6_delete_message_idempotent delete_milk
           (App.handleWebSocketMessage create_milk App.initial)).
  reflexivity.
Defined.

(** C10: a message whose [type] is none of [init], [create], [update] and
    [delete] leaves the whole component state, the task list included, as
    it was, also when it reaches the handler through the socket. *)
Theorem C10_unknown_message_ignored
    (data : App.Message) (s : App.State) (c : App.Client) :
  App.data_type data ∉ App.recognized →
  App.handleWebSocketMessage data s = s
  ∧ App.step c (App.SocketMessage data) = c.
Proof.
  intros H. split; [by apply handle_unknown|].
  cbn. rewrite handle_unknown by done. by destruct c.
Qed.

Lemma C10_witness :
  (App.data_type snapshot_milk ∉ App.recognized)
  ∧ App.handleWebSocketMessage snapshot_milk App.initial = App.initial.
Proof.
  split.
  - apply (bool_decide_unpack _). by vm_compute.
  - apply (C10_unknown_message_ignored snapshot_milk App.initial App.mount).
    apply (bool_decide_unpack _). by vm_compute.
Defined.

(** * Properties of the mounted client *)

Section Mounted.

Implicit Types (c : App.Client) (e : App.Event) (es : list App.Event).

Lemma run_snoc_event es e : App.run (es ++ [e]) = App.step (App.run es) e.
Proof. unfold App.run. by rewrite foldl_app. Qed.

(** The [loadTodos] of the first render sees [wsConnected] as [false],
    whatever the state has become: its result always replaces the list. *)
Lemma fetch_resolved_replaces c data :
  App.todos (App.app (App.step c (App.FetchResolved data))) = data.
Proof. done. Qed.

(** No event brings [wsConnected] back to [false]. *)
Lemma wsConnected_stays c e :
  App.wsConnected (App.app c) = true →
  App.wsConnected (App.app (App.step c e)) = true.
Proof.
  intros H. destruct e as [data| |i|data|i|i|t]; cbn; try done.
  unfold App.handleWebSocketMessage. by repeat case_decide.
Qed.

Lemma wsConnected_stays_run es es' :
  App.wsConnected (App.app (App.run es)) = true →
  App.wsConnected (App.app (App.run (es ++ es'))) = true.
Proof.
  induction es' as [|e es' IH] using rev_ind.
  - by rewrite app_nil_r.
  - intros H. rewrite app_assoc, run_snoc_event.
    by apply wsConnected_stays, IH.
Qed.

(** When a socket closes with its handler in place, exactly one timer is
    armed, with the reconnect delay; the timers armed before stay, and the
    new one is the one [reconnectTimeout] remembers. *)
Lemma close_arms_one_timer c i w :
  Api.sockets (App.ws c) !! i = Some w → Api.onclose w = true →
  Api.timers (App.ws (App.step c (App.SocketClosed i)))
  = Api.timers (App.ws c) ++ [(Api.next_timer (App.ws c), Api.reconnect_delay)]
  ∧ Api.reconnectTimeout (App.ws (App.step c (App.SocketClosed i)))
    = Some (Api.next_timer (App.ws c)).
Proof.
  intros Hw Hc. cbn. unfold Api.closed. rewrite Hw.
  destruct w as [r []]; [done | discriminate].
Qed.

End Mounted.

(** C7, which the code does not meet: after the socket delivered an [init]
    message with one task, which sets [wsConnected], the late result of the
    fetch (here the empty list) still replaces the task list; and so does
    every fetch result after any events, since the [loadTodos] that runs is
    the one of the first render. *)
Theorem C7_late_fetch_replaces_snapshot :
  App.app (App.run [App.SocketOpened 0; App.SocketMessage init_milk])
  = {| App.todos := [milk]; App.error := None; App.wsConnected := true |}
  ∧ App.app (App.run [App.SocketOpened 0; App.SocketMessage init_milk;
                      App.FetchResolved []])
    = {| App.todos := []; App.error := None; App.wsConnected := true |}
  ∧ ∀ es data,
      App.todos (App.app (App.run (es ++ [App.FetchResolved data]))) = data.
Proof.
  split_and!; [reflexivity | reflexivity |].
  intros es data. rewrite run_snoc_event. apply fetch_resolved_replaces.
Qed.

(** C9, which the code meets only in part: when the socket closes after an
    [init] message, exactly one timer is armed, with a delay of 5000
    milliseconds, but the status text still reads as connected; the close of
    a socket never changes the component state. *)
Theorem C9_closed_socket_still_reported_connected :
  App.ws (App.run [App.SocketOpened 0; App.SocketMessage init_milk;
                   App.SocketClosed 0])
  = {| Api.sockets := [{| Api.readyState := Api.CLOSED;
                          Api.onclose := true |}];
       Api.socket := Some 0;
       Api.reconnectTimeout := Some 1%N;
       Api.isConnecting := false;
       Api.timers := [(1%N, 5000%N)];
       Api.next_timer := 2%N |}
  ∧ App.status_text
      (App.app (App.run [App.SocketOpened 0; App.SocketMessage init_milk;
                         App.SocketClosed 0]))
    = lit "Live updates connected"
  ∧ ∀ c i, App.app (App.step c (App.SocketClosed i)) = App.app c.
Proof. split_and!; [reflexivity | reflexivity | done]. Qed.

(** * Further properties of the store *)

Section StoreMore.

Implicit Types (todos : gmap Main.UUID Main.TodoItem) (k : Main.UUID).

Lemma lookup_after_delete todos k : (Main.delete_todo k todos).2 !! k = None.
Proof.
  unfold Main.delete_todo. destruct (todos !! k) eqn:E; cbn; [|done].
  apply lookup_delete_eq.
Qed.

Lemma update_store todos k u :
  (Main.update_todo k u todos).2
  = match todos !! k with
    | Some old =>
        <[k := {| Main.id := Main.id u; Main.title := Main.title u;
                  Main.created_at := Main.created_at old |}]> todos
    | None => todos
    end.
Proof. unfold Main.update_todo. by destruct (todos !! k). Qed.

Lemma dom_update todos k u :
  dom (Main.update_todo k u todos).2 = dom todos.
Proof.
  rewrite update_store. destruct (todos !! k) eqn:E; [|done].
  apply dom_insert_lookup_L. by eexists.
Qed.

Lemma dom_serve todos todos' op :
  dom todos = dom todos' →
  dom (Main.serve todos op) = dom (Main.serve todos' op).
Proof.
  intros H. destruct op as [u t|k].
  - rewrite !serve_create, !dom_insert_L. by rewrite H.
  - rewrite !serve_delete, !dom_delete_L. by rewrite H.
Qed.

Lemma dom_requests rs :
  dom (Endpoints.run rs) = dom (Main.run (Endpoints.writes rs)).
Proof.
  induction rs as [|r rs IH] using rev_ind; [done|].
  unfold Endpoints.run, Endpoints.writes in *.
  rewrite foldl_app, omap_app. cbn [foldl omap].
  destruct r as [|u t|k|k u|k]; cbn [Endpoints.respond].
  - cbn. by rewrite app_nil_r.
  - cbn. rewrite run_snoc. by apply (dom_serve _ _ (Main.Create u t)).
  - cbn. rewrite app_nil_r. unfold Main.get_todo.
    by destruct (_ !! k).
  - cbn. rewrite app_nil_r. by rewrite dom_update.
  - cbn. rewrite run_snoc. by apply (dom_serve _ _ (Main.Delete k)).
Qed.

Lemma size_respond todos r :
  size (Endpoints.respond todos r)
  ≤ size todos + match r with Endpoints.POST_todos _ _ => 1 | _ => 0 end.
Proof.
  destruct r as [|u t|k|k u|k]; cbn [Endpoints.respond].
  - cbn. lia.
  - cbn. rewrite map_size_insert. destruct (_ !! _); cbn; lia.
  - unfold Main.get_todo. destruct (_ !! k); cbn; lia.
  - rewrite <- !(size_dom (D := gset Main.UUID)), dom_update. lia.
  - change (size (Main.serve todos (Main.Delete k)) ≤ size todos + 0).
    rewrite serve_delete, map_size_delete. destruct (_ !! _); cbn; lia.
Qed.

End StoreMore.

(** X1: right after a create, [get_todo] on the identifier of the record
    returns that very record and leaves the dictionary alone, and
    [get_todo] on any other identifier answers as it did before. *)
Theorem X1_get_after_create
    (todos : gmap Main.UUID Main.TodoItem) (uuid4 k : Main.UUID)
    (todo : Main.TodoItem) :
  Main.get_todo (Main.id todo) (Main.create_todo uuid4 todo todos).2
  = (Main.Ok todo, (Main.create_todo uuid4 todo todos).2)
  ∧ (k ≠ Main.id todo →
     (Main.get_todo k (Main.create_todo uuid4 todo todos).2).1
     = (Main.get_todo k todos).1).
Proof.
  cbn. unfold Main.get_todo. split.
  - by rewrite lookup_insert_eq.
  - intros Hk. rewrite lookup_insert_ne by done. by destruct (todos !! k).
Qed.

Lemma X1_witness :
  8%N ≠ Main.id buy_milk
  ∧ (Main.get_todo 8%N (Main.create_todo 1%N buy_milk Main.todos).2).1
    = (Main.get_todo 8%N Main.todos).1.
Proof.
  split; [by vm_compute|].
  apply (X1_get_after_create Main.todos 1%N 8%N buy_milk). by vm_compute.
Defined.

(** X2: once [delete_todo] has run on an identifier, whether it succeeded
    or not, [get_todo], [update_todo] and a second [delete_todo] on that
    identifier all raise the 404 exception and leave the dictionary as it
    is. *)
Theorem X2_deleted_is_not_found
    (todos : gmap Main.UUID Main.TodoItem) (k : Main.UUID)
    (updated_todo : Main.TodoItem) :
  Main.get_todo k (Main.delete_todo k todos).2
  = (Main.HTTPException 404 "Todo not found", (Main.delete_todo k todos).2)
  ∧ Main.update_todo k updated_todo (Main.delete_todo k todos).2
    = (Main.HTTPException 404 "Todo not found", (Main.delete_todo k todos).2)
  ∧ Main.delete_todo k (Main.delete_todo k todos).2
    = (Main.HTTPException 404 "Todo not found", (Main.delete_todo k todos).2).
Proof.
  pose proof (lookup_after_delete todos k) as H.
  generalize dependent ((Main.delete_todo k todos).2). intros todos' H.
  unfold Main.get_todo, Main.update_todo, Main.delete_todo. by rewrite !H.
Qed.

(** X3: creating a record under an identifier the dictionary does not hold
    and then deleting that identifier gives back the dictionary as it was
    before the two requests. *)
Theorem X3_create_then_delete_restores
    (todos : gmap Main.UUID Main.TodoItem) (uuid4 : Main.UUID)
    (todo : Main.TodoItem) :
  todos !! Main.id todo = None →
  Main.delete_todo (Main.id todo) (Main.create_todo uuid4 todo todos).2
  = (Main.Ok "Todo deleted successfully", todos).
Proof.
  intros H. cbn. unfold Main.delete_todo.
  rewrite lookup_insert_eq. by rewrite delete_insert_id.
Qed.

Lemma X3_witness :
  Main.todos !! Main.id buy_milk = None
  ∧ Main.delete_todo (Main.id buy_milk)
      (Main.create_todo 1%N buy_milk Main.todos).2
    = (Main.Ok "Todo deleted successfully", Main.todos).
Proof.
  split; [reflexivity|].
  apply (X3_create_then_delete_restores Main.todos 1%N buy_milk).
  reflexivity.
Defined.

(** X4: an update never adds or removes an identifier: the dictionary holds
    the same identifiers, and as many entries, after [update_todo] as
    before, whether the update succeeded or raised 404. *)
Theorem X4_update_keeps_identifiers
    (todos : gmap Main.UUID Main.TodoItem) (todo_id : Main.UUID)
    (updated_todo : Main.TodoItem) :
  dom (Main.update_todo todo_id updated_todo todos).2 = dom todos
  ∧ size (Main.update_todo todo_id updated_todo todos).2 = size todos
  ∧ (todos !! todo_id = None →
     Main.update_todo todo_id updated_todo todos
     = (Main.HTTPException 404 "Todo not found", todos)).
Proof.
  split_and!.
  - apply dom_update.
  - by rewrite <- !(size_dom (D := gset Main.UUID)), dom_update.
  - intros H. unfold Main.update_todo. by rewrite H.
Qed.

Lemma X4_witness :
  Main.todos !! 7%N = None
  ∧ Main.update_todo 7%N buy_milk Main.todos
    = (Main.HTTPException 404 "Todo not found", Main.todos).
Proof.
  split; [reflexivity|].
  apply (X4_update_keeps_identifiers Main.todos 7%N buy_milk). reflexivity.
Defined.

(** X5: sending the same update twice is the same as sending it once: the
    second call returns what the first returned and leaves the dictionary
    as the first left it. *)
Theorem X5_update_twice_is_once
    (todos : gmap Main.UUID Main.TodoItem) (todo_id : Main.UUID)
    (updated_todo : Main.TodoItem) :
  Main.update_todo todo_id updated_todo
    (Main.update_todo todo_id updated_todo todos).2
  = Main.update_todo todo_id updated_todo todos.
Proof.
  unfold Main.update_todo at 2 3.
  destruct (todos !! todo_id) as [old|] eqn:E; cbn.
  - unfold Main.update_todo. rewrite lookup_insert_eq. cbn.
    f_equal. apply insert_insert_eq.
  - unfold Main.update_todo. by rewrite E.
Qed.

(** X6: the same create sent twice stores one record: the second call
    returns what the first returned and leaves the dictionary as the first
    left it. *)
Theorem X6_create_twice_is_once
    (todos : gmap Main.UUID Main.TodoItem) (uuid4 : Main.UUID)
    (todo : Main.TodoItem) :
  Main.create_todo uuid4 todo (Main.create_todo uuid4 todo todos).2
  = Main.create_todo uuid4 todo todos.
Proof.
  unfold Main.create_todo. cbn [Main.truthy negb snd].
  by rewrite insert_insert_eq.
Qed.

Lemma elem_of_listed (todos : gmap Main.UUID Main.TodoItem) (i : Main.UUID) :
  i ∈ Main.listed todos ↔ ∃ k t, todos !! k = Some t ∧ Main.id t = i.
Proof.
  unfold Main.listed, Main.get_todos. cbn.
  rewrite list_elem_of_fmap. split.
  - intros (t & -> & ([k t'] & -> & Hin%elem_of_map_to_list)%list_elem_of_fmap).
    by exists k, t'.
  - intros (k & t & Hk & <-). exists t. split; [done|].
    apply list_elem_of_fmap. exists (k, t). split; [done|].
    by apply elem_of_map_to_list.
Qed.

(** X7: [update_todo] stores the record under the identifier of the route
    and keeps the identifier the body carries.  When the body carries an
    identifier the dictionary does not hold, the listing then shows that
    identifier and no longer the one of the route, while [get_todo] and
    [delete_todo] on the listed identifier raise 404. *)
Theorem X7_update_under_another_identifier
    (todos : gmap Main.UUID Main.TodoItem) (todo_id : Main.UUID)
    (updated_todo old : Main.TodoItem) :
  keyed todos →
  todos !! todo_id = Some old →
  todos !! Main.id updated_todo = None →
  (Main.id updated_todo
     ∈ Main.listed (Main.update_todo todo_id updated_todo todos).2)
  ∧ (todo_id ∉ Main.listed (Main.update_todo todo_id updated_todo todos).2)
  ∧ Main.get_todo (Main.id updated_todo)
      (Main.update_todo todo_id updated_todo todos).2
    = (Main.HTTPException 404 "Todo not found",
       (Main.update_todo todo_id updated_todo todos).2)
  ∧ Main.delete_todo (Main.id updated_todo)
      (Main.update_todo todo_id updated_todo todos).2
    = (Main.HTTPException 404 "Todo not found",
       (Main.update_todo todo_id updated_todo todos).2).
Proof.
  intros Hkeyed Hold Hnew.
  assert (Main.id updated_todo ≠ todo_id) as Hne by congruence.
  rewrite update_store, Hold.
  assert ((<[todo_id := {| Main.id := Main.id updated_todo;
                           Main.title := Main.title updated_todo;
                           Main.created_at := Main.created_at old |}]> todos)
          !! Main.id updated_todo = None) as Hgone.
  { by rewrite lookup_insert_ne. }
  split_and!.
  - apply elem_of_listed. do 2 eexists. split; [apply lookup_insert_eq|done].
  - intros (k & t & Hk & Hid)%elem_of_listed.
    rewrite lookup_insert in Hk. case_decide as E.
    + injection Hk as <-. cbn in Hid. done.
    + apply Hkeyed in Hk. congruence.
  - unfold Main.get_todo. by rewrite Hgone.
  - unfold Main.delete_todo. by rewrite Hgone.
Qed.

Lemma X7_witness :
  (keyed (Main.run [Main.Create 1%N buy_milk])
   ∧ Main.run [Main.Create 1%N buy_milk] !! 7%N = Some buy_milk
   ∧ Main.run [Main.Create 1%N buy_milk] !! Main.id two_spaces = None)
  ∧ (Main.id two_spaces
       ∈ Main.listed
           (Main.update_todo 7%N two_spaces
              (Main.run [Main.Create 1%N buy_milk])).2).
Proof.
  split; [split_and!; [apply keyed_run | reflexivity | reflexivity]|].
  apply (X7_update_under_another_identifier
           (Main.run [Main.Create 1%N buy_milk]) 7%N two_spaces buy_milk);
    [apply keyed_run | reflexivity | reflexivity].
Defined.

(** X8: [get_todos] leaves the dictionary as it is and returns one record
    per entry: as many records as the dictionary has entries, and exactly
    the records stored under some identifier. *)
Theorem X8_listing_is_the_stored_records
    (todos : gmap Main.UUID Main.TodoItem) :
  ∃ l, Main.get_todos todos = (Main.Ok l, todos)
       ∧ length l = size todos
       ∧ ∀ t, t ∈ l ↔ ∃ k, todos !! k = Some t.
Proof.
  eexists. split_and!; [reflexivity|..].
  - by rewrite length_fmap, length_map_to_list.
  - intros t. rewrite list_elem_of_fmap. split.
    + intros ([k t'] & -> & Hin%elem_of_map_to_list). by exists k.
    + intros [k Hk]. exists (k, t). split; [done|].
      by apply elem_of_map_to_list.
Qed.

(** X9: over any sequence of requests to the five routes, served from the
    empty dictionary, reads and updates do not count for which identifiers
    the dictionary holds: it holds exactly the identifiers created by some
    create request that no later delete request names. *)
Theorem X9_identifiers_after_any_requests
    (rs : list Endpoints.Request) (i : Main.UUID) :
  is_Some (Endpoints.run rs !! i) ↔
  ∃ before uuid4 todo after,
    Endpoints.writes rs = before ++ Main.Create uuid4 todo :: after
    ∧ Main.id todo = i
    ∧ Main.Delete i ∉ after.
Proof.
  fold (live i (Endpoints.writes rs)). rewrite <- lookup_run_live.
  rewrite <- !elem_of_dom. by rewrite dom_requests.
Qed.

(** X10: the dictionary never holds more entries than create requests were
    served, whatever other requests came in between. *)
Theorem X10_size_at_most_creates (rs : list Endpoints.Request) :
  size (Endpoints.run rs)
  ≤ length (filter (λ op, Endpoints.is_create op = true)
                   (Endpoints.writes rs)).
Proof.
  induction rs as [|r rs IH] using rev_ind; [done|].
  unfold Endpoints.run, Endpoints.writes in *.
  rewrite foldl_app, omap_app, filter_app, length_app. cbn [foldl].
  eapply Nat.le_trans; [apply size_respond|].
  apply Nat.add_le_mono; [done|].
  destruct r; vm_compute; lia.
Qed.



(** * Further properties of [trim] and of the input form *)

Section TrimMore.

Implicit Types (s : text) (c : N).

Lemma trimStart_fixed s :
  (∀ c, head s = Some c → JS.isWhiteSpace c = false) → JS.trimStart s = s.
Proof.
  destruct s as [|c s]; [done|]. intros H. cbn.
  by rewrite (H c).
Qed.

Lemma trim_fixed s : trimmed s → JS.trim s = s.
Proof.
  intros [Hhd Hlast]. unfold JS.trim, JS.trimEnd.
  rewrite (trimStart_fixed s) by done.
  rewrite trimStart_fixed; [apply reverse_involutive|].
  intros c. rewrite head_reverse. apply Hlast.
Qed.

Lemma trimmed_nil : trimmed [].
Proof. by split. Qed.

Lemma trimmed_trim s : trimmed (JS.trim s).
Proof.
  destruct (decide (blank s)) as [Hb|Hb].
  - rewrite trim_blank by done. apply trimmed_nil.
  - by destruct (trim_not_blank s Hb) as (l & r & _ & _ & _ & _ & Ht).
Qed.

Lemma trim_length s : length (JS.trim s) ≤ length s.
Proof.
  destruct (trimStart_split s) as (l & Hl & _).
  destruct (trimEnd_split (JS.trimStart s)) as (r & Hr & _).
  unfold JS.trim. rewrite Hl at 2. rewrite Hr at 2.
  rewrite !length_app. lia.
Qed.

End TrimMore.

(** X12: [trim] is idempotent and never makes a text longer; so a title the
    input form has passed on is passed on unchanged when it is submitted
    again. *)
Theorem X12_trim_idempotent (title : text) :
  JS.trim (JS.trim title) = JS.trim title
  ∧ length (JS.trim title) ≤ length title
  ∧ ∀ t, (TodoInput.handleSubmit title).1 = Some t →
         TodoInput.handleSubmit t = (Some t, lit "").
Proof.
  assert (JS.trim (JS.trim title) = JS.trim title) as Hidem.
  { apply trim_fixed, trimmed_trim. }
  split_and!; [done | apply trim_length |].
  intros t. unfold TodoInput.handleSubmit.
  destruct (JS.truthy (JS.trim title)) eqn:E; cbn; [|done].
  intros [= <-]. by rewrite Hidem, E.
Qed.

(** X13: [trim] leaves a text as it is exactly when the text neither starts
    nor ends with white space; white space inside the text is kept. *)
Theorem X13_trim_fixes_exactly_the_trimmed (s : text) :
  JS.trim s = s ↔ trimmed s.
Proof.
  split.
  - intros <-. apply trimmed_trim.
  - apply trim_fixed.
Qed.

Lemma X12_witness :
  (TodoInput.handleSubmit (lit " a ")).1 = Some (lit "a")
  ∧ TodoInput.handleSubmit (lit "a") = (Some (lit "a"), lit "").
Proof.
  split; [reflexivity|].
  apply (X12_trim_idempotent (lit " a ")). reflexivity.
Defined.

(** * Further properties of the live-update handler *)

Section HandlerMore.

Implicit Types (data : App.Message) (s : App.State) (l : list App.TodoItem).

Local Ltac other_tag :=
  match goal with
  | H : lit _ = lit _ |- _ => by vm_compute in H
  end.

Lemma handle_update data s :
  App.data_type data = lit "update" →
  App.handleWebSocketMessage data s
  = App.setTodos
      (fmap (λ todo, if decide (App.id todo = App.id (App.data_todo data))
                     then App.data_todo data else todo)) s.
Proof.
  intros H. unfold App.handleWebSocketMessage. rewrite H.
  repeat (case_decide; [other_tag || done|]). done.
Qed.

(** The replacement an [update] message makes keeps every identifier. *)
Lemma replace_ids (new : App.TodoItem) l :
  App.id <$> ((λ todo, if decide (App.id todo = App.id new)
                       then new else todo) <$> l)
  = App.id <$> l.
Proof.
  rewrite <- list_fmap_compose. apply list_fmap_ext.
  intros i todo _. cbn. by case_decide.
Qed.

Lemma replace_absent (new : App.TodoItem) l :
  App.id new ∉ App.id <$> l →
  (λ todo, if decide (App.id todo = App.id new) then new else todo) <$> l = l.
Proof.
  intros H. rewrite <- (list_fmap_id l) at 2. apply list_fmap_ext.
  intros i todo Hi. cbn. case_decide as E; [|done].
  exfalso. apply H. rewrite <- E. apply list_elem_of_fmap_2.
  by eapply list_elem_of_lookup_2.
Qed.

Lemma replace_twice (new : App.TodoItem) l :
  (λ todo, if decide (App.id todo = App.id new) then new else todo)
    <$> ((λ todo, if decide (App.id todo = App.id new) then new else todo)
           <$> l)
  = (λ todo, if decide (App.id todo = App.id new) then new else todo) <$> l.
Proof.
  rewrite <- list_fmap_compose. apply list_fmap_ext.
  intros i todo _. cbn.
  destruct (decide (App.id todo = App.id new)) as [E|E].
  - by rewrite decide_True.
  - by rewrite decide_False.
Qed.

Lemma filter_two_orders {A} (P Q : A → Prop)
    `{!∀ x, Decision (P x), !∀ x, Decision (Q x)} (l : list A) :
  filter P (filter Q l) = filter Q (filter P l).
Proof.
  rewrite !list_filter_filter. apply list_filter_iff. tauto.
Qed.

End HandlerMore.

(** X14: an [update] message replaces every task that has the identifier
    of the carried task by that task and keeps the others, so the list keeps
    its length and its identifiers in their order; when no task has the
    identifier, the state stays as it is; and handling the message twice is
    the same as handling it once. *)
Theorem X14_update_message_replaces_in_place
    (data : App.Message) (s : App.State) :
  App.data_type data = lit "update" →
  App.id <$> App.todos (App.handleWebSocketMessage data s)
  = App.id <$> App.todos s
  ∧ (∀ i todo, App.todos s !! i = Some todo →
       App.todos (App.handleWebSocketMessage data s) !! i
       = Some (if decide (App.id todo = App.id (App.data_todo data))
               then App.data_todo data else todo))
  ∧ (App.id (App.data_todo data) ∉ App.id <$> App.todos s →
     App.handleWebSocketMessage data s = s)
  ∧ App.handleWebSocketMessage data (App.handleWebSocketMessage data s)
    = App.handleWebSocketMessage data s.
Proof.
  intros H. rewrite !handle_update by done. split_and!.
  - apply replace_ids.
  - intros i todo Hi. cbn. by rewrite list_lookup_fmap, Hi.
  - intros Habs. rewrite <- (setTodos_id s) at 2.
    unfold App.setTodos. f_equal. by apply replace_absent.
  - unfold App.setTodos. cbn. f_equal. apply replace_twice.
Qed.

(** X15: no message changes the error text, and the only message that
    changes [wsConnected] is one tagged [init], which sets it. *)
Theorem X15_messages_keep_error
    (data : App.Message) (s : App.State) :
  App.error (App.handleWebSocketMessage data s) = App.error s
  ∧ App.wsConnected (App.handleWebSocketMessage data s)
    = App.wsConnected s || bool_decide (App.data_type data = lit "init").
Proof.
  unfold App.handleWebSocketMessage.
  case_decide as E; [by rewrite bool_decide_true, orb_true_r|].
  rewrite bool_decide_false, orb_false_r by done.
  by repeat case_decide.
Qed.

(** X16: a [delete] message undoes the [create] messages for its
    identifier that came before it: after a [create] and a [delete] for the
    same identifier the list is what the [delete] alone would have left,
    and the state is back as it was when no task had that identifier. *)
Theorem X16_delete_undoes_create
    (created deleted : App.Message) (s : App.State) :
  App.data_type created = lit "create" →
  App.data_type deleted = lit "delete" →
  App.data_id deleted = App.id (App.data_todo created) →
  App.handleWebSocketMessage deleted (App.handleWebSocketMessage created s)
  = App.handleWebSocketMessage deleted s
  ∧ (App.data_id deleted ∉ App.id <$> App.todos s →
     App.handleWebSocketMessage deleted
       (App.handleWebSocketMessage created s) = s).
Proof.
  intros Hc Hd Hid.
  assert (App.handleWebSocketMessage deleted
            (App.handleWebSocketMessage created s)
          = App.handleWebSocketMessage deleted s) as Heq.
  { rewrite (handle_delete deleted s Hd).
    rewrite (handle_delete deleted _ Hd), (handle_create created s Hc).
    unfold App.setTodos. cbn. f_equal.
    rewrite filter_app, filter_cons_False, filter_nil, app_nil_r; [done|].
    intros Hne. by apply Hne. }
  split; [done|]. intros Habs. rewrite Heq, handle_delete by done.
  rewrite <- (setTodos_id s) at 2. unfold App.setTodos. f_equal.
  apply filter_keeps_all, Forall_forall. intros todo Hin Heq'.
  apply Habs. rewrite <- Heq'. by apply list_elem_of_fmap_2.
Qed.

Lemma X14_witness :
  App.data_type update_tea = lit "update"
  ∧ App.id <$> App.todos (App.handleWebSocketMessage update_tea
                            (App.handleWebSocketMessage create_milk
                               App.initial))
    = App.id <$> App.todos (App.handleWebSocketMessage create_milk
                              App.initial).
Proof.
  split; [reflexivity|].
  apply (proj1 (X14_update_message_replaces_in_place update_tea
                  (App.handleWebSocketMessage create_milk App.initial)
                  eq_refl)).
Defined.

Lemma X16_witness :
  (App.data_type create_milk = lit "create"
   ∧ App.data_type delete_milk = lit "delete"
   ∧ App.data_id delete_milk = App.id (App.data_todo create_milk))
  ∧ App.handleWebSocketMessage delete_milk
      (App.handleWebSocketMessage create_milk
         (App.handleWebSocketMessage create_bread App.initial))
    = App.handleWebSocketMessage delete_milk
        (App.handleWebSocketMessage create_bread App.initial).
Proof.
  split; [split_and!; reflexivity|].
  apply (proj1 (X16_delete_undoes_create create_milk delete_milk
                  (App.handleWebSocketMessage create_bread App.initial)
                  eq_refl eq_refl eq_refl)).
Defined.

(** X17: a [delete] message can change places with the message next to it
    when that one is another [delete], or a [create] for a different
    identifier: the state ends up the same. *)
Theorem X17_delete_commutes
    (deleted other : App.Message) (s : App.State) :
  App.data_type deleted = lit "delete" →
  App.data_type other = lit "delete"
  ∨ (App.data_type other = lit "create"
     ∧ App.id (App.data_todo other) ≠ App.data_id deleted) →
  App.handleWebSocketMessage deleted (App.handleWebSocketMessage other s)
  = App.handleWebSocketMessage other (App.handleWebSocketMessage deleted s).
Proof.
  intros Hd [Ho|[Ho Hne]].
  - rewrite (handle_delete deleted _ Hd), (handle_delete other s Ho).
    rewrite (handle_delete other _ Ho), (handle_delete deleted s Hd).
    unfold App.setTodos. cbn. f_equal. apply filter_two_orders.
  - rewrite (handle_delete deleted _ Hd), (handle_create other s Ho).
    rewrite (handle_create other _ Ho), (handle_delete deleted s Hd).
    unfold App.setTodos. cbn. f_equal.
    by rewrite filter_app, filter_cons_True, filter_nil.
Qed.

Lemma X17_witness :
  (App.data_type delete_milk = lit "delete"
   ∧ (App.data_type create_bread = lit "delete"
      ∨ (App.data_type create_bread = lit "create"
         ∧ App.id (App.data_todo create_bread) ≠ App.data_id delete_milk)))
  ∧ App.handleWebSocketMessage delete_milk
      (App.handleWebSocketMessage create_bread
         (App.handleWebSocketMessage create_milk App.initial))
    = App.handleWebSocketMessage create_bread
        (App.handleWebSocketMessage delete_milk
           (App.handleWebSocketMessage create_milk App.initial)).
Proof.
  assert (App.data_type create_bread = lit "delete"
          ∨ (App.data_type create_bread = lit "create"
             ∧ App.id (App.data_todo create_bread)
               ≠ App.data_id delete_milk)) as H.
  { right. split; [reflexivity | by vm_compute]. }
  split; [split; [reflexivity | exact H]|].
  apply (X17_delete_commutes delete_milk create_bread
           (App.handleWebSocketMessage create_milk App.initial)
           eq_refl H).
Defined.

(** * Further properties of the mounted client *)

Section ClientMore.

Implicit Types (c : App.Client) (e : App.Event) (es : list App.Event).
Implicit Types (s : App.State) (data : App.Message).

(** What one event does to [wsConnected]. *)
Lemma step_wsConnected c e :
  App.wsConnected (App.app (App.step c e))
  = App.wsConnected (App.app c)
    || match e with
       | App.SocketMessage data =>
           bool_decide (App.data_type data = lit "init")
       | _ => false
       end.
Proof.
  destruct e as [l| |i|data|i|i|t]; cbn; rewrite ?orb_false_r; try done.
  unfold App.handleWebSocketMessage.
  case_decide as E; [by rewrite bool_decide_true, orb_true_r|].
  rewrite bool_decide_false, orb_false_r by done.
  by repeat case_decide.
Qed.

Lemma init_received_snoc es e :
  init_received (es ++ [e]) ↔
  init_received es
  ∨ ∃ data, e = App.SocketMessage data ∧ App.data_type data = lit "init".
Proof.
  unfold init_received. split.
  - intros (data & [Hin|Hin%list_elem_of_singleton]%elem_of_app & Ht).
    + left. by exists data.
    + right. by exists data.
  - intros [(data & Hin & Ht)|(data & -> & Ht)]; exists data.
    + split; [|done]. apply elem_of_app. by left.
    + split; [|done]. apply elem_of_app. right. by left.
Qed.

Lemma handle_setError data (err : option text) s :
  App.handleWebSocketMessage data (App.setError err s)
  = App.setError err (App.handleWebSocketMessage data s).
Proof. unfold App.handleWebSocketMessage. by repeat case_decide. Qed.

Lemma receive_setError (ms : list App.Message) (err : option text) s :
  Handlers.receive ms (App.setError err s)
  = App.setError err (Handlers.receive ms s).
Proof.
  revert s. induction ms as [|data ms IH]; intros s; [done|].
  cbn. rewrite handle_setError. apply IH.
Qed.

End ClientMore.

(** X18: at any moment of a mounted client, [wsConnected] is set exactly
    when a message tagged [init] has come in since the mount, however long
    ago and whatever happened to the socket since; the status text reads as
    connected in exactly that case. *)
Theorem X18_connected_iff_init_received (es : list App.Event) :
  (App.wsConnected (App.app (App.run es)) = true ↔ init_received es)
  ∧ (App.status_text (App.app (App.run es)) = lit "Live updates connected"
     ↔ init_received es).
Proof.
  assert (App.wsConnected (App.app (App.run es)) = true ↔ init_received es)
    as H.
  { induction es as [|e es IH] using rev_ind.
    - split; [done|]. by intros (data & Hin%elem_of_nil & _).
    - rewrite run_snoc_event, step_wsConnected, init_received_snoc.
      rewrite orb_true_iff, IH. apply or_iff_compat_l.
      destruct e as [l| |i|data|i|i|t];
        try (split; [done | by intros (d & ? & _)]).
      rewrite bool_decide_eq_true. split.
      + intros Ht. by exists data.
      + by intros (d & [= ->] & Ht). }
  split; [done|]. rewrite <- H. unfold App.status_text.
  destruct (App.wsConnected _); split; done.
Qed.

(** X19: the two handlers that write through the REST API never touch the
    task list or [wsConnected]: whatever the outcome of the request, the
    list is the one the socket messages received meanwhile have made.  The
    error text is clear afterwards exactly when the request succeeded: for
    an add, an ok response whose body could be read; for a delete, an ok
    response. *)
Theorem X19_write_handlers_keep_the_list
    (added : Rest.Fetched App.TodoItem) (deleted : Rest.Fetched ())
    (ms : list App.Message) (s : App.State) :
  (App.todos (Handlers.handleAddTodo_settled added
                (Handlers.receive ms (Handlers.handleAddTodo_start s)))
   = App.todos (Handlers.receive ms s)
   ∧ App.wsConnected (Handlers.handleAddTodo_settled added
                        (Handlers.receive ms (Handlers.handleAddTodo_start s)))
     = App.wsConnected (Handlers.receive ms s)
   ∧ (App.error (Handlers.handleAddTodo_settled added
                   (Handlers.receive ms (Handlers.handleAddTodo_start s)))
      = None
      ↔ ∃ todo, added = Rest.Response true (Rest.Fulfilled todo)))
  ∧ (App.todos (Handlers.handleDeleteTodo_settled deleted
                  (Handlers.receive ms (Handlers.handleDeleteTodo_start s)))
     = App.todos (Handlers.receive ms s)
     ∧ App.wsConnected (Handlers.handleDeleteTodo_settled deleted
                          (Handlers.receive ms
                             (Handlers.handleDeleteTodo_start s)))
       = App.wsConnected (Handlers.receive ms s)
     ∧ (App.error (Handlers.handleDeleteTodo_settled deleted
                     (Handlers.receive ms
                        (Handlers.handleDeleteTodo_start s)))
        = None
        ↔ ∃ json, deleted = Rest.Response true json)).
Proof.
  unfold Handlers.handleAddTodo_start, Handlers.handleDeleteTodo_start.
  rewrite receive_setError.
  unfold Handlers.handleAddTodo_settled, Handlers.handleDeleteTodo_settled.
  split.
  - destruct added as [reason|[] [todo|reason]]; cbn;
      (split_and!; [done | done |]);
      split; try done; try (by intros [? [=]]). by eexists.
  - destruct deleted as [reason|[] json]; cbn;
      (split_and!; [done | done |]);
      split; try done; try (by intros [? [=]]). by eexists.
Qed.

(** X20: when the first load settles, the task list is replaced exactly
    when the response was ok and its body could be read, and then by the
    tasks of the body; in every other case the list is kept and the error
    text tells that the load failed.  [wsConnected] is never touched. *)
Theorem X20_load_replaces_or_reports
    (r : Rest.Fetched (list App.TodoItem)) (s : App.State) :
  App.wsConnected (Handlers.loadTodos_settled App.first_render r s)
  = App.wsConnected s
  ∧ (∀ data, r = Rest.Response true (Rest.Fulfilled data) →
       Handlers.loadTodos_settled App.first_render r s
       = App.setTodos (λ _, data) s)
  ∧ ((∀ data, r ≠ Rest.Response true (Rest.Fulfilled data)) →
     Handlers.loadTodos_settled App.first_render r s
     = App.setError
         (Some (lit "Failed to load todos. Please try again later.")) s).
Proof.
  unfold Handlers.loadTodos_settled.
  destruct r as [reason|[] [data|reason]]; cbn; split_and!; try done;
    try (by intros d [=]); try (by intros d [= ->]).
  intros H. by destruct (H data).
Qed.

Lemma X20_witness :
  (∀ data : list App.TodoItem,
     Rest.Response false (Rest.Fulfilled [milk])
     ≠ Rest.Response true (Rest.Fulfilled data))
  ∧ Handlers.loadTodos_settled App.first_render
      (Rest.Response false (Rest.Fulfilled [milk]))
      (App.handleWebSocketMessage create_bread App.initial)
    = App.setError
        (Some (lit "Failed to load todos. Please try again later."))
        (App.handleWebSocketMessage create_bread App.initial).
Proof.
  assert (∀ data : list App.TodoItem,
            Rest.Response false (Rest.Fulfilled [milk])
            ≠ Rest.Response true (Rest.Fulfilled data)) as H.
  { intros data. discriminate. }
  split; [exact H|].
  exact (proj2 (proj2 (X20_load_replaces_or_reports
                         (Rest.Response false (Rest.Fulfilled [milk]))
                         (App.handleWebSocketMessage create_bread
                            App.initial))) H).
Defined.

(** * Properties of the connection module *)

Section Connection.

Implicit Types (s : Api.State) (c : App.Client) (es : list App.Event).

Lemma NoDup_fst_filter {A B} (P : A * B → Prop) `{!∀ x, Decision (P x)}
    (l : list (A * B)) :
  NoDup l.*1 → NoDup (filter P l).*1.
Proof.
  intros Hnd. eapply sublist_NoDup; [exact Hnd|].
  apply fmap_sublist, sublist_filter.
Qed.

Lemma Forall_filter_keep {A} (P Q : A → Prop) `{!∀ x, Decision (Q x)}
    (l : list A) :
  Forall P l → Forall P (filter Q l).
Proof.
  rewrite !Forall_forall. intros Hl x [_ Hx]%list_elem_of_filter.
  by apply Hl.
Qed.

(** The timers below [t] are all kept when [t] is taken out. *)
Lemma filter_other_timers (t : N) (l : list (N * N)) (P : N * N → Prop) :
  Forall (λ e, (0 < e.1 < t)%N ∧ P e) l →
  filter (λ e, e.1 ≠ t) l = l.
Proof.
  intros Hl. apply filter_keeps_all. eapply Forall_impl; [exact Hl|].
  intros e [He _]. cbn in *. lia.
Qed.

Lemma connection_ok_mount : connection_ok (App.ws App.mount).
Proof.
  unfold connection_ok. cbn. split_and!.
  - constructor.
  - constructor.
  - lia.
  - by intros t.
  - exists 0. split; [done | cbn; lia].
  - by repeat constructor.
  - intros _. by eexists.
Qed.

Lemma connection_ok_opened s i :
  connection_ok s → connection_ok (Api.opened i s).
Proof.
  intros Hs. pose proof Hs as (ND & FA & Hn & Hrt & (j & Hj & Hlt) & Hon & Hc).
  unfold Api.opened. destruct (Api.sockets s !! i) eqn:E; [|done].
  unfold connection_ok. cbn. split_and!; try done.
  - exists j. by rewrite length_alter.
  - by apply Forall_alter.
Qed.

Lemma connection_ok_errored s i :
  connection_ok s → connection_ok (Api.errored i s).
Proof.
  intros Hs. pose proof Hs as (ND & FA & Hn & Hrt & (j & Hj & Hlt) & Hon & Hc).
  unfold Api.errored. destruct (Api.sockets s !! i) eqn:E; [|done].
  unfold connection_ok. cbn. split_and!; try done. by exists j.
Qed.

Lemma connection_ok_closed s i :
  connection_ok s → connection_ok (Api.closed i s).
Proof.
  intros Hs. pose proof Hs as (ND & FA & Hn & Hrt & (j & Hj & Hlt) & Hon & Hc).
  unfold Api.closed. destruct (Api.sockets s !! i) as [[r b]|] eqn:E;
    [|done].
  assert (b = true) as -> by apply (Forall_lookup_1 _ _ _ _ Hon E).
  unfold connection_ok. cbn. split_and!; try done.
  - rewrite fmap_app. apply NoDup_app. split_and!; [done| |by apply NoDup_singleton].
    intros x (e & -> & Hin)%list_elem_of_fmap Hx%list_elem_of_singleton.
    rewrite Forall_forall in FA. destruct (FA _ Hin) as [Hlt' _].
    cbn in Hx. lia.
  - apply Forall_app. split.
    + eapply Forall_impl; [exact FA|]. intros e [He ?]. split; [lia|done].
    + constructor; [|constructor]. cbn. split; [lia|done].
  - lia.
  - intros t [= <-]. lia.
  - exists j. by rewrite length_alter.
  - by apply Forall_alter.
Qed.

Lemma connection_ok_connect s :
  connection_ok s → connection_ok (Api.connectWebSocket s).
Proof.
  intros Hs. pose proof Hs as (ND & FA & Hn & Hrt & (j & Hj & Hlt) & Hon & Hc).
  unfold Api.connectWebSocket.
  destruct (Api.isConnecting s) eqn:Ei; [done|].
  assert (∀ s', Api.sockets s' = Api.sockets s →
                Api.next_timer s' = Api.next_timer s →
                NoDup (Api.timers s').*1 →
                Forall (λ e, (0 < e.1 < Api.next_timer s)%N
                             ∧ e.2 = Api.reconnect_delay) (Api.timers s') →
                (∀ t, Api.reconnectTimeout s' = Some t →
                      (0 < t < Api.next_timer s)%N) →
                connection_ok
                  (let '(i, s'') :=
                     Api.new_WebSocket (Api.set_isConnecting true s') in
                   Api.set_socket (Some i) s'')) as Hnew.
  { intros s' Hsk Hnx ND' FA' Hrt'. unfold connection_ok. cbn.
    rewrite Hsk, Hnx. split_and!; try done.
    - exists (length (Api.sockets s)). split; [done|].
      rewrite length_app. cbn. lia.
    - apply Forall_app. split; [exact Hon|].
      apply Forall_cons. split; [reflexivity | apply Forall_nil_2].
    - intros _. eexists. split; [by apply list_lookup_middle | done]. }
  assert (connection_ok
            (let '(i, s'') :=
               Api.new_WebSocket
                 (Api.set_isConnecting true (Api.clear_reconnect s)) in
             Api.set_socket (Some i) s'')) as Hgoal.
  { unfold Api.clear_reconnect.
    destruct (Api.reconnectTimeout s) as [t|] eqn:Et;
      [destruct (t =? 0)%N|]; apply Hnew; try done; cbn;
      try (by apply NoDup_fst_filter); try (by apply Forall_filter_keep);
      try (rewrite Et; exact Hrt). }
  destruct (Api.current s) as [[[] b]|]; done.
Qed.

Lemma connection_ok_fired s t :
  connection_ok s → connection_ok (Api.fired t s).
Proof.
  intros Hs. unfold Api.fired. case_bool_decide; [|done].
  apply connection_ok_connect.
  destruct Hs as (ND & FA & Hn & Hrt & (j & Hj & Hlt) & Hon & Hc).
  unfold connection_ok. cbn. split_and!; try done.
  - by apply NoDup_fst_filter.
  - by apply Forall_filter_keep.
  - by exists j.
Qed.

Lemma connection_ok_run es : connection_ok (App.ws (App.run es)).
Proof.
  induction es as [|e es IH] using rev_ind; [apply connection_ok_mount|].
  rewrite run_snoc_event. destruct e as [l| |i|data|i|i|t]; cbn; try done.
  - by apply connection_ok_opened.
  - by apply connection_ok_errored.
  - by apply connection_ok_closed.
  - by apply connection_ok_fired.
Qed.

End Connection.

(** X21: every timer a mounted client has armed waits the 5000
    milliseconds of the reconnect delay, never less; the armed timers have
    distinct identifiers, none of them zero, and so has the timer
    [reconnectTimeout] remembers: the test [if (reconnectTimeout)] never
    takes a remembered timer for none. *)
Theorem X21_armed_timers_wait_the_delay (es : list App.Event) :
  NoDup (Api.timers (App.ws (App.run es))).*1
  ∧ (∀ t d, (t, d) ∈ Api.timers (App.ws (App.run es)) →
            d = 5000%N ∧ t ≠ 0%N)
  ∧ (∀ t, Api.reconnectTimeout (App.ws (App.run es)) = Some t → t ≠ 0%N).
Proof.
  destruct (connection_ok_run es) as (ND & FA & _ & Hrt & _).
  split_and!; [done|..].
  - intros t d Hin. rewrite Forall_forall in FA.
    destruct (FA _ Hin) as [Ht Hd]. cbn in *. split; [done | lia].
  - intros t Ht. apply Hrt in Ht. lia.
Qed.

(** X22: a mounted client always has a current socket: the variable
    [socket] is never null and names a socket object that exists.  Every
    socket object keeps its [onclose] handler, and while [isConnecting] is
    set the current socket is still connecting. *)
Theorem X22_current_socket_exists (es : list App.Event) :
  (∃ i w, Api.socket (App.ws (App.run es)) = Some i
          ∧ Api.sockets (App.ws (App.run es)) !! i = Some w)
  ∧ Forall (λ w, Api.onclose w = true) (Api.sockets (App.ws (App.run es)))
  ∧ (Api.isConnecting (App.ws (App.run es)) = true →
     ∃ w, Api.current (App.ws (App.run es)) = Some w
          ∧ Api.readyState w = Api.CONNECTING).
Proof.
  destruct (connection_ok_run es) as (_ & _ & _ & _ & (i & Hi & Hlt) & Hon & Hc).
  split_and!; [|done|done].
  destruct (lookup_lt_is_Some_2 _ _ Hlt) as [w Hw]. by exists i, w.
Qed.

(** X23: [connectWebSocket] called again right after a call changes
    nothing: no second socket is created. *)
Theorem X23_connect_twice_is_once (s : Api.State) :
  Api.connectWebSocket (Api.connectWebSocket s) = Api.connectWebSocket s.
Proof.
  assert (∀ s', Api.isConnecting s' = true → Api.connectWebSocket s' = s')
    as Hbusy.
  { intros s' H. unfold Api.connectWebSocket. by rewrite H. }
  destruct (Api.isConnecting s) eqn:Ei.
  { by rewrite !(Hbusy s). }
  destruct (Api.current s) as [[r b]|] eqn:Ec.
  - destruct r.
    2: { assert (Api.connectWebSocket s = s) as Hopen.
         { unfold Api.connectWebSocket. by rewrite Ei, Ec. }
         by rewrite !Hopen. }
    all: apply Hbusy; unfold Api.connectWebSocket; by rewrite Ei, Ec.
  - apply Hbusy. unfold Api.connectWebSocket. by rewrite Ei, Ec.
Qed.

(** The connection module after the current socket closed and the timer
    this armed fired. *)
Lemma reconnect_state (s : Api.State) (i : nat) :
  connection_ok s → Api.socket s = Some i →
  Api.fired (Api.next_timer s) (Api.closed i s)
  = {| Api.sockets :=
         alter (λ w, {| Api.readyState := Api.CLOSED;
                        Api.onclose := Api.onclose w |}) i (Api.sockets s)
         ++ [{| Api.readyState := Api.CONNECTING; Api.onclose := true |}];
       Api.socket := Some (length (Api.sockets s));
       Api.reconnectTimeout := None;
       Api.isConnecting := true;
       Api.timers := Api.timers s;
       Api.next_timer := N.succ (Api.next_timer s) |}.
Proof.
  intros (ND & FA & Hn & Hrt & (j & Hj & Hlt) & Hon & Hc) Hi.
  assert (j = i) as -> by congruence.
  destruct (lookup_lt_is_Some_2 _ _ Hlt) as [[r b] E].
  assert (b = true) as -> by apply (Forall_lookup_1 _ _ _ _ Hon E).
  assert (filter (λ e : N * N, e.1 ≠ Api.next_timer s) (Api.timers s)
          = Api.timers s) as Hkeep.
  { by apply (filter_other_timers _ _ (λ e, e.2 = Api.reconnect_delay)). }
  unfold Api.closed. rewrite E. unfold Api.fired. cbn.
  rewrite bool_decide_true.
  2: { rewrite fmap_app. apply elem_of_app. right. by left. }
  rewrite filter_app, Hkeep, filter_cons_False, filter_nil, app_nil_r
    by (cbn; tauto).
  unfold Api.connectWebSocket. cbn. unfold Api.current. cbn.
  rewrite Hi. cbn. rewrite list_lookup_alter_eq, E. cbn.
  unfold Api.clear_reconnect. cbn.
  destruct (N.eqb_spec (Api.next_timer s) 0) as [H0|_]; [lia|].
  unfold Api.set_socket, Api.set_sockets, Api.set_isConnecting,
    Api.set_reconnectTimeout, Api.clearTimeout, Api.set_timers. cbn.
  by rewrite Hkeep, length_alter.
Qed.

(** X24: when the current socket of a mounted client closes and the timer
    this arms fires, a new socket object is created and becomes the current
    one, connecting, with its [onclose] handler; the closed one is kept as
    closed, no timer of these two steps stays armed, and the component state
    is not touched. *)
Theorem X24_closed_socket_is_replaced (es : list App.Event) (i : nat) :
  Api.socket (App.ws (App.run es)) = Some i →
  App.ws (App.run (es ++ [App.SocketClosed i;
                          App.TimerFired
                            (Api.next_timer (App.ws (App.run es)))]))
  = {| Api.sockets :=
         alter (λ w, {| Api.readyState := Api.CLOSED;
                        Api.onclose := Api.onclose w |}) i
               (Api.sockets (App.ws (App.run es)))
         ++ [{| Api.readyState := Api.CONNECTING; Api.onclose := true |}];
       Api.socket := Some (length (Api.sockets (App.ws (App.run es))));
       Api.reconnectTimeout := None;
       Api.isConnecting := true;
       Api.timers := Api.timers (App.ws (App.run es));
       Api.next_timer := N.succ (Api.next_timer (App.ws (App.run es))) |}
  ∧ App.app (App.run (es ++ [App.SocketClosed i;
                             App.TimerFired
                               (Api.next_timer (App.ws (App.run es)))]))
    = App.app (App.run es).
Proof.
  intros Hi.
  replace (es ++ [App.SocketClosed i;
                  App.TimerFired (Api.next_timer (App.ws (App.run es)))])
    with ((es ++ [App.SocketClosed i])
          ++ [App.TimerFired (Api.next_timer (App.ws (App.run es)))])
    by (by rewrite <- app_assoc).
  rewrite !run_snoc_event. cbn. split; [|done].
  apply reconnect_state; [apply connection_ok_run | done].
Qed.

Lemma X24_witness :
  Api.socket (App.ws (App.run [App.SocketOpened 0])) = Some 0
  ∧ App.ws (App.run ([App.SocketOpened 0]
                      ++ [App.SocketClosed 0; App.TimerFired 1%N]))
    = {| Api.sockets := [{| Api.readyState := Api.CLOSED;
                            Api.onclose := true |};
                         {| Api.readyState := Api.CONNECTING;
                            Api.onclose := true |}];
         Api.socket := Some 1;
         Api.reconnectTimeout := None;
         Api.isConnecting := true;
         Api.timers := [];
         Api.next_timer := 2%N |}.
Proof.
  split; [reflexivity|].
  exact (proj1 (X24_closed_socket_is_replaced [App.SocketOpened 0] 0 eq_refl)).
Defined.

(** X25: [disconnectWebSocket] leaves no current socket and clears
    [isConnecting]; calling it again changes nothing.  The socket it
    disconnected arms no timer when it closes afterwards, and the timer
    [reconnectTimeout] remembered is no longer armed: its firing does
    nothing. *)
Theorem X25_disconnect_stops_reconnecting (s : Api.State) :
  Api.disconnectWebSocket (Api.disconnectWebSocket s)
  = Api.disconnectWebSocket s
  ∧ Api.socket (Api.disconnectWebSocket s) = None
  ∧ Api.isConnecting (Api.disconnectWebSocket s) = false
  ∧ (∀ i, Api.socket s = Some i →
       Api.timers (Api.closed i (Api.disconnectWebSocket s))
       = Api.timers (Api.disconnectWebSocket s)
       ∧ Api.reconnectTimeout (Api.closed i (Api.disconnectWebSocket s))
         = Api.reconnectTimeout (Api.disconnectWebSocket s))
  ∧ (∀ t, Api.reconnectTimeout s = Some t → t ≠ 0%N →
       Api.reconnectTimeout (Api.disconnectWebSocket s) = None
       ∧ Api.fired t (Api.disconnectWebSocket s)
         = Api.disconnectWebSocket s).
Proof.
  split_and!.
  - unfold Api.disconnectWebSocket, Api.clear_reconnect.
    destruct (Api.reconnectTimeout s) as [t|] eqn:Et;
      [destruct (t =? 0)%N eqn:E0|];
      destruct (Api.socket s) as [i|] eqn:Es; cbn;
      rewrite ?Et, ?E0, ?Es; cbn; rewrite ?Et, ?E0, ?Es; done.
  - unfold Api.disconnectWebSocket.
    destruct (Api.socket (Api.clear_reconnect s)) eqn:E; [done|]. cbn. done.
  - done.
  - intros i Hi. unfold Api.disconnectWebSocket.
    assert (Api.socket (Api.clear_reconnect s) = Some i) as ->.
    { unfold Api.clear_reconnect.
      destruct (Api.reconnectTimeout s) as [t|]; [destruct (t =? 0)%N|]; done. }
    unfold Api.closed. cbn. rewrite list_lookup_alter_eq.
    destruct (Api.sockets (Api.clear_reconnect s) !! i) as [[r b]|]; done.
  - intros t Ht Hne. apply N.eqb_neq in Hne.
    unfold Api.disconnectWebSocket, Api.clear_reconnect. rewrite Ht, Hne.
    cbn [Api.socket Api.set_reconnectTimeout Api.clearTimeout Api.set_timers].
    destruct (Api.socket s) as [i|]; (split; [reflexivity|]);
      unfold Api.fired; (rewrite bool_decide_false; [done|]); cbn;
      intros (e & He & [Hne' _]%list_elem_of_filter)%list_elem_of_fmap;
      done.
Qed.

Lemma X25_witness :
  (Api.socket (Api.closed 0 (Api.opened 0 (App.ws App.mount))) = Some 0
   ∧ Api.reconnectTimeout (Api.closed 0 (Api.opened 0 (App.ws App.mount)))
     = Some 1%N
   ∧ 1%N ≠ 0%N)
  ∧ Api.fired 1%N
      (Api.disconnectWebSocket
         (Api.closed 0 (Api.opened 0 (App.ws App.mount))))
    = Api.disconnectWebSocket
        (Api.closed 0 (Api.opened 0 (App.ws App.mount))).
Proof.
  assert (1%N ≠ 0%N) as H by (by vm_compute).
  split; [split_and!; [reflexivity | reflexivity | exact H]|].
  exact (proj2 (proj2 (proj2 (proj2 (proj2
           (X25_disconnect_stops_reconnecting
              (Api.closed 0 (Api.opened 0 (App.ws App.mount)))))))
           1%N eq_refl H)).
Defined.
